(** * Verification model of the Daily.co webhook receiver (src/webhook-server.js)

    The receiver authenticates provider callbacks with an HMAC-SHA256
    signature, decodes the body as JSON, dispatches on the [type] field and
    appends log lines.  This file embeds that code: the crypto it calls
    ([crypto.createHmac('sha256')], [Buffer.from(_, 'hex')],
    [crypto.timingSafeEqual]), the JSON decoding done by [JSON.parse] and by
    the [express.json] / [express.raw] middlewares, the JavaScript value
    operations the handlers rely on (truthiness, property access, template
    literal conversion), the handlers and the two POST routes.

    Conventions.
    - JavaScript strings and request bodies are Rocq [string]s read as byte
      strings (UTF-8 bytes); a byte is a [Z] in [0, 256).
    - A request is described by its path, its two signature headers,
      whether body-parser reads its body (it carries one and is typed
      [application/json]) and the body bytes after any [Content-Encoding]
      is undone.  A JSON request declares no charset or [utf-8], uses an
      encoding body-parser supports and has a body its framing headers
      describe correctly; the 415 and 400 answers body-parser gives
      otherwise are not modelled.
    - Effects of a request: the lines written by [writeLog] and the entry
      into one of the three event handlers; [console.log] output is not
      modelled.
    - Paths follow POSIX [path]. *)

From Stdlib Require Import ZArith List String Ascii Bool Lia.
Import ListNotations.
Open Scope string_scope.
Open Scope list_scope.
Open Scope Z_scope.

(* ------------------------------------------------------------------ *)
(** ** Bytes and 32-bit words *)

Definition byte := Z.

Definition bytes_of_string (s : string) : list byte :=
  map (fun c => Z.of_nat (nat_of_ascii c)) (list_ascii_of_string s).

Definition mask32 : Z := 4294967295.
Definition w32 (x : Z) : Z := Z.land x mask32.
Definition add32 (x y : Z) : Z := w32 (x + y).
Definition rotr (x : Z) (n : Z) : Z :=
  Z.lor (Z.shiftr x n) (w32 (Z.shiftl x (32 - n))).

Definition be_word (b0 b1 b2 b3 : byte) : Z :=
  Z.lor (Z.shiftl b0 24) (Z.lor (Z.shiftl b1 16) (Z.lor (Z.shiftl b2 8) b3)).

Definition word_bytes (w : Z) : list byte :=
  [Z.shiftr w 24 mod 256; Z.shiftr w 16 mod 256; Z.shiftr w 8 mod 256; w mod 256].

(* ------------------------------------------------------------------ *)
(** ** SHA-256 (FIPS 180-4), as computed by [crypto.createHash('sha256')] *)

Module Sha256.

Definition K : list Z := [
  1116352408; 1899447441; 3049323471; 3921009573; 961987163; 1508970993; 2453635748; 2870763221;
  3624381080; 310598401; 607225278; 1426881987; 1925078388; 2162078206; 2614888103; 3248222580;
  3835390401; 4022224774; 264347078; 604807628; 770255983; 1249150122; 1555081692; 1996064986;
  2554220882; 2821834349; 2952996808; 3210313671; 3336571891; 3584528711; 113926993; 338241895;
  666307205; 773529912; 1294757372; 1396182291; 1695183700; 1986661051; 2177026350; 2456956037;
  2730485921; 2820302411; 3259730800; 3345764771; 3516065817; 3600352804; 4094571909; 275423344;
  430227734; 506948616; 659060556; 883997877; 958139571; 1322822218; 1537002063; 1747873779;
  1955562222; 2024104815; 2227730452; 2361852424; 2428436474; 2756734187; 3204031479; 3329325298].

(** The eight working variables [a..h]. *)
Record state := mkState { sa : Z; sb : Z; sc : Z; sd : Z; se : Z; sf : Z; sg : Z; sh : Z }.

Definition H0 : state :=
  mkState 1779033703 3144134277 1013904242 2773480762
          1359893119 2600822924 528734635 1541459225.

Definition big_sigma0 x := Z.lxor (Z.lxor (rotr x 2) (rotr x 13)) (rotr x 22).
Definition big_sigma1 x := Z.lxor (Z.lxor (rotr x 6) (rotr x 11)) (rotr x 25).
Definition small_sigma0 x := Z.lxor (Z.lxor (rotr x 7) (rotr x 18)) (Z.shiftr x 3).
Definition small_sigma1 x := Z.lxor (Z.lxor (rotr x 17) (rotr x 19)) (Z.shiftr x 10).
Definition ch x y z := Z.lxor (Z.land x y) (Z.land (Z.lxor x mask32) z).
Definition maj x y z := Z.lxor (Z.lxor (Z.land x y) (Z.land x z)) (Z.land y z).

(** One round; [win] holds the next sixteen schedule words [W t .. W (t+15)]. *)
Definition round (s : state) (k w : Z) : state :=
  let t1 := add32 (add32 (add32 (add32 (sh s) (big_sigma1 (se s)))
                                (ch (se s) (sf s) (sg s))) k) w in
  let t2 := add32 (big_sigma0 (sa s)) (maj (sa s) (sb s) (sc s)) in
  mkState (add32 t1 t2) (sa s) (sb s) (sc s) (add32 (sd s) t1) (se s) (sf s) (sg s).

Definition next_word (win : list Z) : Z :=
  add32 (add32 (add32 (small_sigma1 (nth 14 win 0)) (nth 9 win 0))
               (small_sigma0 (nth 1 win 0))) (nth 0 win 0).

Fixpoint rounds (ks : list Z) (win : list Z) (s : state) : state :=
  match ks with
  | [] => s
  | k :: ks' => rounds ks' (tl win ++ [next_word win]) (round s k (hd 0 win))
  end.

Fixpoint block_words (blk : list byte) : list Z :=
  match blk with
  | b0 :: b1 :: b2 :: b3 :: rest => be_word b0 b1 b2 b3 :: block_words rest
  | _ => []
  end.

Definition compress (s : state) (blk : list byte) : state :=
  let s' := rounds K (block_words blk) s in
  mkState (add32 (sa s) (sa s')) (add32 (sb s) (sb s')) (add32 (sc s) (sc s'))
          (add32 (sd s) (sd s')) (add32 (se s) (se s')) (add32 (sf s) (sf s'))
          (add32 (sg s) (sg s')) (add32 (sh s) (sh s')).

(** Padding: [0x80], zeros, then the 64-bit big-endian bit length. *)
Definition pad (m : list byte) : list byte :=
  let len := Z.of_nat (List.length m) in
  let zeros := Z.to_nat ((55 - len) mod 64) in
  m ++ [128] ++ repeat 0 zeros
    ++ word_bytes (Z.shiftr (8 * len) 32) ++ word_bytes (w32 (8 * len)).

Fixpoint process (fuel : nat) (s : state) (m : list byte) : state :=
  match fuel with
  | O => s
  | S f => match m with
           | [] => s
           | _ => process f (compress s (firstn 64 m)) (skipn 64 m)
           end
  end.

Definition digest_of (s : state) : list byte :=
  word_bytes (sa s) ++ word_bytes (sb s) ++ word_bytes (sc s) ++ word_bytes (sd s)
  ++ word_bytes (se s) ++ word_bytes (sf s) ++ word_bytes (sg s) ++ word_bytes (sh s).

Definition hash (m : list byte) : list byte :=
  let p := pad m in digest_of (process (List.length p) H0 p).

End Sha256.

(** HMAC (RFC 2104) over SHA-256, block size 64: [crypto.createHmac('sha256', key)]. *)
Definition hmac_sha256 (key msg : list byte) : list byte :=
  let k := if Nat.ltb 64 (List.length key) then Sha256.hash key else key in
  let k0 := k ++ repeat 0 (64 - List.length k)%nat in
  let ipad := map (Z.lxor 54) k0 in
  let opad := map (Z.lxor 92) k0 in
  Sha256.hash (opad ++ Sha256.hash (ipad ++ msg)).

(* ------------------------------------------------------------------ *)
(** ** Hex: [digest('hex')] and [Buffer.from(s, 'hex')] *)

Definition hex_char (n : Z) : ascii :=
  ascii_of_nat (Z.to_nat (if n <? 10 then 48 + n else 87 + n)).

Fixpoint hex_encode (bs : list byte) : string :=
  match bs with
  | [] => EmptyString
  | b :: rest => String (hex_char (b / 16)) (String (hex_char (b mod 16)) (hex_encode rest))
  end.

Definition hex_val (c : ascii) : option Z :=
  let n := Z.of_nat (nat_of_ascii c) in
  if (48 <=? n) && (n <=? 57) then Some (n - 48)
  else if (97 <=? n) && (n <=? 102) then Some (n - 87)
  else if (65 <=? n) && (n <=? 70) then Some (n - 55)
  else None.

(** Node decodes hex two characters at a time and stops at the first pair
    that is not two hex digits; a trailing odd character is dropped. *)
Fixpoint hex_decode (s : string) : list byte :=
  match s with
  | String a (String b rest) =>
      match hex_val a, hex_val b with
      | Some x, Some y => (16 * x + y) :: hex_decode rest
      | _, _ => []
      end
  | _ => []
  end.

(* ------------------------------------------------------------------ *)
(** ** JavaScript values produced by [JSON.parse] *)

Set Warnings "-register-all".

(** A number keeps its JSON lexeme; the code observes only whether it
    is zero. *)
Inductive jsval :=
| JUndef
| JNull
| JBool (b : bool)
| JNum (lexeme : string)
| JStr (s : string)
| JArr (xs : list jsval)
| JObj (fields : list (string * jsval)).

Definition is_digit (c : ascii) : bool :=
  Nat.leb 48 (nat_of_ascii c) && Nat.leb (nat_of_ascii c) 57.

Definition digit_val (c : ascii) : Z := Z.of_nat (nat_of_ascii c) - 48.

(** The mantissa of a JSON number lexeme read as an integer [m], the
    number of its fraction digits [f] and the text of its exponent: the
    lexeme denotes [m * 10 ^ (exponent - f)]. *)
Fixpoint mantissa (lex : string) (m f : Z) (in_frac : bool) : Z * Z * string :=
  match lex with
  | EmptyString => (m, f, EmptyString)
  | String c rest =>
      if is_digit c then mantissa rest (10 * m + digit_val c) (if in_frac then f + 1 else f) in_frac
      else if Ascii.eqb c "." then mantissa rest m f true
      else if Ascii.eqb c "e" || Ascii.eqb c "E" then (m, f, rest)
      else mantissa rest m f in_frac
  end.

Fixpoint digits_value (s : string) (acc : Z) : Z :=
  match s with
  | EmptyString => acc
  | String c rest => digits_value rest (10 * acc + digit_val c)
  end.

Definition exponent_value (s : string) : Z :=
  match s with
  | String c rest =>
      if Ascii.eqb c "-" then - digits_value rest 0
      else if Ascii.eqb c "+" then digits_value rest 0
      else digits_value s 0
  | EmptyString => 0
  end.

(** [Number(lex) === 0]: the mantissa is zero, or the value is at most
    2^-1075, half the least subnormal double, and rounds to [0] (a tie
    rounds to the even [0]). *)
Definition num_is_zero (lex : string) : bool :=
  let '(m, f, e) := mantissa lex 0 0 false in
  let k := exponent_value e - f in
  Z.eqb m 0 || (Z.ltb k 0 && Z.leb (m * 2 ^ 1075) (10 ^ (- k))).

(** [!!v] *)
Definition truthy (v : jsval) : bool :=
  match v with
  | JUndef | JNull => false
  | JBool b => b
  | JNum n => negb (num_is_zero n)
  | JStr s => negb (String.eqb s "")
  | JArr _ | JObj _ => true
  end.

(** [a || b] *)
Definition js_or (a b : jsval) : jsval := if truthy a then a else b.

Definition has_own (k : string) (fs : list (string * jsval)) : bool :=
  existsb (fun kv => String.eqb (fst kv) k) fs.

(** Converting a value to a primitive ([`${v}`], [v * 1000], [v / 60])
    throws a [TypeError] exactly for an object with an own, hence not
    callable, [toString] property, also when it sits inside an array that
    [Array.prototype.join] converts. *)
Fixpoint prim_ok (v : jsval) : bool :=
  match v with
  | JObj fs => negb (has_own "toString" fs)
  | JArr xs => forallb prim_ok xs
  | _ => true
  end.

(** [JSON.parse] keeps the last of duplicated keys. *)
Definition lookup_field (k : string) (fs : list (string * jsval)) : option jsval :=
  fold_left (fun acc kv => if String.eqb (fst kv) k then Some (snd kv) else acc) fs None.

(* ------------------------------------------------------------------ *)
(** ** [JSON.parse] *)

Module Json.

Definition is_ws (c : ascii) : bool :=
  match nat_of_ascii c with 32 | 9 | 10 | 13 => true | _ => false end%nat.

Fixpoint skip_ws (s : string) : string :=
  match s with
  | String c rest => if is_ws c then skip_ws rest else s
  | EmptyString => s
  end.

Fixpoint take_digits (s : string) : string * string :=
  match s with
  | String c rest =>
      if is_digit c then let (d, r) := take_digits rest in (String c d, r)
      else (EmptyString, s)
  | EmptyString => (EmptyString, EmptyString)
  end.

Definition nonempty (s : string) : bool := negb (String.eqb s "").

(** [-? (0 | [1-9][0-9]* ) (. [0-9]+)? ([eE] [+-]? [0-9]+)?], returned as
    its lexeme and the rest of the input. *)
Definition parse_number (s : string) : option (string * string) :=
  let '(sign, s1) := match s with
                     | String c r => if Ascii.eqb c "-" then ("-", r) else ("", s)
                     | _ => ("", s) end in
  let int_part :=
    match s1 with
    | String c r =>
        if Ascii.eqb c "0" then Some ("0", r)
        else if is_digit c then Some (take_digits s1) else None
    | _ => None
    end in
  match int_part with
  | None => None
  | Some (i, s2) =>
      let frac :=
        match s2 with
        | String c r =>
            if Ascii.eqb c "." then
              let (d, r') := take_digits r in
              if nonempty d then Some ("." ++ d, r')%string else None
            else Some ("", s2)
        | _ => Some ("", s2)
        end in
      match frac with
      | None => None
      | Some (f, s3) =>
          let expo :=
            match s3 with
            | String e r =>
                if Ascii.eqb e "e" || Ascii.eqb e "E" then
                  let '(sg, r1) := match r with
                                   | String c r' =>
                                       if Ascii.eqb c "+" || Ascii.eqb c "-"
                                       then (String c "", r') else ("", r)
                                   | _ => ("", r) end in
                  let (d, r2) := take_digits r1 in
                  if nonempty d then Some (String e (sg ++ d), r2)%string else None
                else Some ("", s3)
            | _ => Some ("", s3)
            end in
          match expo with
          | None => None
          | Some (x, s4) => Some ((sign ++ i ++ f ++ x)%string, s4)
          end
      end
  end.

(** UTF-8 bytes of a UTF-16 code unit written as [\uXXXX]. *)
Definition utf8_unit (u : Z) : string :=
  let ch n := String (ascii_of_nat (Z.to_nat n)) "" in
  if u <? 128 then ch u
  else if u <? 2048 then
    (ch (192 + Z.shiftr u 6) ++ ch (128 + u mod 64))%string
  else (ch (224 + Z.shiftr u 12) ++ ch (128 + Z.shiftr u 6 mod 64)
        ++ ch (128 + u mod 64))%string.

Definition escape_char (e : ascii) : option ascii :=
  match nat_of_ascii e with
  | 34 => Some "034"%char | 92 => Some "092"%char | 47 => Some "/"%char
  | 98 => Some "008"%char | 102 => Some "012"%char | 110 => Some "010"%char
  | 114 => Some "013"%char | 116 => Some "009"%char
  | _ => None
  end%nat.

(** Body of a string literal, after its opening quote. *)
Fixpoint parse_str_body (s : string) : option (string * string) :=
  match s with
  | EmptyString => None
  | String c rest =>
      if Ascii.eqb c "034" then Some (EmptyString, rest)
      else if Ascii.eqb c "092" then
        match rest with
        | String e rest' =>
            if Ascii.eqb e "u" then
              match rest' with
              | String h1 (String h2 (String h3 (String h4 r))) =>
                  match hex_val h1, hex_val h2, hex_val h3, hex_val h4 with
                  | Some a, Some b, Some c', Some d =>
                      match parse_str_body r with
                      | Some (str, r') =>
                          Some ((utf8_unit (4096 * a + 256 * b + 16 * c' + d) ++ str)%string, r')
                      | None => None
                      end
                  | _, _, _, _ => None
                  end
              | _ => None
              end
            else
              match escape_char e, parse_str_body rest' with
              | Some x, Some (str, r') => Some (String x str, r')
              | _, _ => None
              end
        | EmptyString => None
        end
      else if Nat.ltb (nat_of_ascii c) 32 then None
      else match parse_str_body rest with
           | Some (str, r') => Some (String c str, r')
           | None => None
           end
  end.

Fixpoint parse_value (n : nat) (s : string) : option (jsval * string) :=
  match n with
  | O => None
  | S n' =>
    match skip_ws s with
    | EmptyString => None
    | String c rest as s' =>
      if Ascii.eqb c "{" then
        match skip_ws rest with
        | String d r => if Ascii.eqb d "}" then Some (JObj [], r)
                        else option_map (fun p => (JObj (fst p), snd p))
                                        (parse_members n' [] rest)
        | EmptyString => None
        end
      else if Ascii.eqb c "[" then
        match skip_ws rest with
        | String d r => if Ascii.eqb d "]" then Some (JArr [], r)
                        else option_map (fun p => (JArr (fst p), snd p))
                                        (parse_elems n' [] rest)
        | EmptyString => None
        end
      else if Ascii.eqb c "034" then
        option_map (fun p => (JStr (fst p), snd p)) (parse_str_body rest)
      else if String.prefix "true" s' then Some (JBool true, substring 4 (String.length s') s')
      else if String.prefix "false" s' then Some (JBool false, substring 5 (String.length s') s')
      else if String.prefix "null" s' then Some (JNull, substring 4 (String.length s') s')
      else option_map (fun p => (JNum (fst p), snd p)) (parse_number s')
    end
  end
(** Elements of an array, after [[] or [,]. *)
with parse_elems (n : nat) (acc : list jsval) (s : string) : option (list jsval * string) :=
  match n with
  | O => None
  | S n' =>
    match parse_value n' s with
    | None => None
    | Some (v, r) =>
      match skip_ws r with
      | String c r' =>
          if Ascii.eqb c "," then parse_elems n' (acc ++ [v]) r'
          else if Ascii.eqb c "]" then Some (acc ++ [v], r')
          else None
      | EmptyString => None
      end
    end
  end
(** Members of an object, after [{] or [,]. *)
with parse_members (n : nat) (acc : list (string * jsval)) (s : string)
  : option (list (string * jsval) * string) :=
  match n with
  | O => None
  | S n' =>
    match skip_ws s with
    | String q r =>
      if Ascii.eqb q "034" then
        match parse_str_body r with
        | Some (k, r1) =>
          match skip_ws r1 with
          | String col r2 =>
            if Ascii.eqb col ":" then
              match parse_value n' r2 with
              | Some (v, r3) =>
                match skip_ws r3 with
                | String c r4 =>
                    if Ascii.eqb c "," then parse_members n' (acc ++ [(k, v)]) r4
                    else if Ascii.eqb c "}" then Some (acc ++ [(k, v)], r4)
                    else None
                | EmptyString => None
                end
              | None => None
              end
            else None
          | EmptyString => None
          end
        | None => None
        end
      else None
    | EmptyString => None
    end
  end.

(** [JSON.parse(s)]; [None] is a thrown [SyntaxError].  Every two nested
    calls consume at least one character, so the fuel always suffices. *)
Definition parse (s : string) : option jsval :=
  match parse_value (2 * String.length s + 2) s with
  | Some (v, rest) => if String.eqb (skip_ws rest) "" then Some v else None
  | None => None
  end.

(** First non-whitespace character, as body-parser's [firstchar]. *)
Definition first_char (s : string) : option ascii :=
  match skip_ws s with String c _ => Some c | EmptyString => None end.

End Json.

(* ------------------------------------------------------------------ *)
(** ** Effects: a writer of log lines with exceptions *)

Inductive exn := TypeError | RangeError | SyntaxError | AxiosError.

Inductive event_kind := KStarted | KReady | KError.

(** The lines [writeLog] appends (the timestamp prefix is left out).  Each
    constructor carries the values its template literal interpolates. *)
Inductive log_entry :=
| LogStarted (room_name recording_id started_by start_ts : jsval)
    (* 🎬 RECORDING STARTED ... *)
| LogReady (room_name recording_id duration start_ts s3_key download streaming : jsval)
    (* ✅ RECORDING STOPPED & READY ... Download URL / Streaming URL *)
| LogRecordingError (room_name recording_id error_msg : jsval)
    (* ❌ RECORDING ERROR ... *)
| LogInvalidEvent (k : event_kind)
    (* ❌ INVALID EVENT: Missing payload in <kind> event *)
| LogEventType (t : jsval)
    (* 📝 WEBHOOK: Received event type: ${event.type} *)
| LogEventReceived (t : jsval)
    (* 📝 WEBHOOK EVENT RECEIVED: ${event.type} *)
| LogInvalidSignature
    (* ❌ WEBHOOK ERROR: Invalid signature *)
| LogWebhookError (e : exn).
    (* ❌ WEBHOOK ERROR: ${error.message} *)

Inductive effect :=
| WriteLog (l : log_entry)
| RunHandler (k : event_kind).

Inductive result (A : Type) := Ok (a : A) | Err (e : exn).
Arguments Ok {A} a.
Arguments Err {A} e.

Definition M (A : Type) : Type := (list effect * result A)%type.

Definition ret {A} (a : A) : M A := ([], Ok a).
Definition throw {A} (e : exn) : M A := ([], Err e).
Definition tell (x : effect) : M unit := ([x], Ok tt).

Definition bind {A B} (m : M A) (f : A -> M B) : M B :=
  match m with
  | (l, Ok a) => let (l', r) := f a in (l ++ l', r)
  | (l, Err e) => (l, Err e)
  end.

(** [try { m } catch (e) { h(e) }] *)
Definition catch {A} (m : M A) (h : exn -> M A) : M A :=
  match m with
  | (l, Ok a) => (l, Ok a)
  | (l, Err e) => let (l', r) := h e in (l ++ l', r)
  end.

Notation "x <- m ;; k" := (bind m (fun x => k)) (at level 61, m at next level, right associativity).
Notation "m ;; k" := (bind m (fun _ => k)) (at level 61, right associativity).

(** [writeLog] catches its own file errors and never throws. *)
Definition writeLog (l : log_entry) : M unit := tell (WriteLog l).

(** Conversion of an interpolated or multiplied value to a primitive. *)
Definition to_primitive (v : jsval) : M unit :=
  if prim_ok v then ret tt else throw TypeError.

(** [v.k] for the fixed keys the code reads (none of them is an own
    property of strings or arrays, nor inherited from a prototype). *)
Definition get_prop (v : jsval) (k : string) : M jsval :=
  match v with
  | JUndef | JNull => throw TypeError
  | JObj fs => ret (match lookup_field k fs with Some x => x | None => JUndef end)
  | _ => ret JUndef
  end.

(* ------------------------------------------------------------------ *)
(** ** [verifyWebhookSignature] (webhook-server.js, lines 41-60) *)

(** A request body as the route receives it: the raw [Buffer] kept by
    [express.raw] on [/webhook], or the value parsed by [express.json]. *)
Inductive body := BodyBuffer (raw : string) | BodyParsed (v : jsval).

(** [!!s] for an environment variable or a header: [undefined] or a string. *)
Definition truthy_opt (s : option string) : bool :=
  match s with Some x => negb (String.eqb x "") | None => false end.

Fixpoint bytes_eqb (a b : list byte) : bool :=
  match a, b with
  | [], [] => true
  | x :: a', y :: b' => Z.eqb x y && bytes_eqb a' b'
  | _, _ => false
  end.

(** [crypto.timingSafeEqual] throws a [RangeError] on buffers of
    different lengths. *)
Definition timingSafeEqual (a b : list byte) : M bool :=
  if Nat.eqb (List.length a) (List.length b) then ret (bytes_eqb a b)
  else throw RangeError.

Definition strip_prefix (signature : string) : string :=
  if String.prefix "sha256=" signature
  then substring 7 (String.length signature) signature
  else signature.

Definition verifyWebhookSignature (payload : body) (signature secret : option string) : M bool :=
  if negb (truthy_opt secret) || negb (truthy_opt signature) then ret false
  else
    match secret, signature with
    | Some sec, Some sg =>
        match payload with
        | BodyParsed _ => throw TypeError  (* [hmac.update] of a non-string, non-Buffer *)
        | BodyBuffer raw =>
            let expectedSignature :=
              hex_encode (hmac_sha256 (bytes_of_string sec) (bytes_of_string raw)) in
            let actualSignature := strip_prefix sg in
            timingSafeEqual (hex_decode expectedSignature) (hex_decode actualSignature)
        end
    | _, _ => ret false
    end.

(* ------------------------------------------------------------------ *)
(** ** Enrichment lookups (lines 63-94) *)

(** Outcome of an [axios.get] to the provider: the response's [data], or a
    rejection (network error, non-2xx status). *)
Inductive fetch := FetchOk (data : jsval) | FetchFailed.

(** The provider API as the receiver sees it: [GET /recordings/{id}] and
    [GET /recordings/{id}/access-link?valid_for_secs=N]. *)
Record upstream := {
  get_recording : jsval -> fetch;
  get_access_link : jsval -> Z -> fetch
}.

Definition axios_get (f : fetch) : M jsval :=
  match f with FetchOk d => ret d | FetchFailed => throw AxiosError end.

Definition getRecordingDownloadUrl (up : upstream) (recordingId : jsval) : M jsval :=
  catch (to_primitive recordingId ;;
         data <- axios_get (get_recording up recordingId) ;;
         link <- get_prop data "download_link" ;;
         ret (js_or link JNull))
        (fun _ => ret JNull).

Definition getRecordingAccessLink (up : upstream) (recordingId : jsval) (validForSecs : Z) : M jsval :=
  catch (to_primitive recordingId ;;
         data <- axios_get (get_access_link up recordingId validForSecs) ;;
         link <- get_prop data "download_link" ;;
         ret (js_or link JNull))
        (fun _ => ret JNull).

(* ------------------------------------------------------------------ *)
(** ** Event handlers (lines 157-226) *)

Definition not_available (v : jsval) : jsval := js_or v (JStr "Not available").

Definition handleRecordingStarted (event : jsval) : M unit :=
  tell (RunHandler KStarted) ;;
  if negb (truthy event) then writeLog (LogInvalidEvent KStarted) else
  payload <- get_prop event "payload" ;;
  if negb (truthy payload) then writeLog (LogInvalidEvent KStarted) else
  room_name <- get_prop payload "room_name" ;;
  recording_id <- get_prop payload "recording_id" ;;
  started_by <- get_prop payload "started_by" ;;
  start_ts <- get_prop payload "start_ts" ;;
  to_primitive start_ts ;;                         (* new Date(start_ts * 1000) *)
  let by_ := js_or started_by (JStr "Unknown") in
  to_primitive room_name ;; to_primitive recording_id ;; to_primitive by_ ;;
  writeLog (LogStarted room_name recording_id by_ start_ts).

Definition handleRecordingReady (up : upstream) (event : jsval) : M unit :=
  tell (RunHandler KReady) ;;
  if negb (truthy event) then writeLog (LogInvalidEvent KReady) else
  payload <- get_prop event "payload" ;;
  if negb (truthy payload) then writeLog (LogInvalidEvent KReady) else
  room_name <- get_prop payload "room_name" ;;
  recording_id <- get_prop payload "recording_id" ;;
  duration <- get_prop payload "duration" ;;
  start_ts <- get_prop payload "start_ts" ;;
  s3_key <- get_prop payload "s3_key" ;;
  to_primitive start_ts ;;                         (* startTime *)
  to_primitive duration ;;                         (* durationMinutes *)
  downloadUrl <- getRecordingDownloadUrl up recording_id ;;
  accessLink <- getRecordingAccessLink up recording_id 3600 ;;
  let s3 := not_available s3_key in
  let dl := not_available downloadUrl in
  let al := not_available accessLink in
  to_primitive room_name ;; to_primitive recording_id ;;
  to_primitive s3 ;; to_primitive dl ;; to_primitive al ;;
  writeLog (LogReady room_name recording_id duration start_ts s3 dl al).

Definition handleRecordingError (event : jsval) : M unit :=
  tell (RunHandler KError) ;;
  if negb (truthy event) then writeLog (LogInvalidEvent KError) else
  payload <- get_prop event "payload" ;;
  if negb (truthy payload) then writeLog (LogInvalidEvent KError) else
  room_name <- get_prop payload "room_name" ;;
  recording_id <- get_prop payload "recording_id" ;;
  error_msg <- get_prop payload "error_msg" ;;
  let msg := js_or error_msg (JStr "Unknown error") in
  to_primitive room_name ;; to_primitive recording_id ;; to_primitive msg ;;
  writeLog (LogRecordingError room_name recording_id msg).

(** [switch (event.type)] (lines 129-144 and 293-308). *)
Definition dispatch (up : upstream) (event : jsval) : M unit :=
  t <- get_prop event "type" ;;
  let default := to_primitive t ;; writeLog (LogEventType t) in
  match t with
  | JStr s =>
      if String.eqb s "recording.started" then handleRecordingStarted event
      else if String.eqb s "recording.ready-to-download" then handleRecordingReady up event
      else if String.eqb s "recording.error" then handleRecordingError event
      else default
  | _ => default
  end.

(* ------------------------------------------------------------------ *)
(** ** The POST routes (lines 97-154 and 248-322) *)

Inductive reply :=
| ReplyReceived          (* {"status":"received"} *)
| ReplyInvalidSignature  (* {"error":"Invalid signature"} *)
| ReplyInternalError     (* {"error":"Internal server error"} *)
| ReplyErrorPage.        (* Express' default error page for a body-parser error *)

Record response := mkResponse { status : Z; reply_body : reply }.

Definition resp200 := mkResponse 200 ReplyReceived.
Definition resp401 := mkResponse 401 ReplyInvalidSignature.
Definition resp500 := mkResponse 500 ReplyInternalError.
Definition resp400 := mkResponse 400 ReplyErrorPage.
Definition resp413 := mkResponse 413 ReplyErrorPage.

(** The body-parser release Express bundles: 1.x with Express 4, 2.x with
    Express 5. *)
Inductive body_parser_major := BodyParser1 | BodyParser2.

(** [req.body] when neither middleware reads the body: body-parser 1.x
    sets [req.body = req.body || {}], 2.x leaves [undefined]. *)
Definition unread_body (bp : body_parser_major) : jsval :=
  match bp with BodyParser1 => JObj [] | BodyParser2 => JUndef end.

(** Process-wide configuration: the secret read at startup and the
    installed body-parser. *)
Record config := { WEBHOOK_SECRET : option string; body_parser : body_parser_major }.

(** [if (WEBHOOK_SECRET && signature) { ... }]: [true] lets the request
    through, [false] answers 401. *)
Definition signature_gate (cfg : config) (signature : option string) (payload : body) : M bool :=
  if truthy_opt (WEBHOOK_SECRET cfg) && truthy_opt signature then
    isValid <- verifyWebhookSignature payload signature (WEBHOOK_SECRET cfg) ;;
    if isValid then ret true else (writeLog LogInvalidSignature ;; ret false)
  else ret true.

(** [JSON.parse(payload.toString())] for a [Buffer], the value itself otherwise. *)
Definition parse_event (payload : body) : M jsval :=
  match payload with
  | BodyBuffer raw => match Json.parse raw with Some v => ret v | None => throw SyntaxError end
  | BodyParsed v => ret v
  end.

Definition on_error (e : exn) : M response :=
  writeLog (LogWebhookError e) ;; ret resp500.

(** [app.post('/webhook', ...)] *)
Definition post_webhook (cfg : config) (up : upstream) (signature : option string)
  (payload : body) : M response :=
  catch (ok <- signature_gate cfg signature payload ;;
         if negb ok then ret resp401 else
         event <- parse_event payload ;;
         dispatch up event ;;
         ret resp200)
        on_error.

(** The POST branch of [app.all('/', ...)]. *)
Definition post_root (cfg : config) (up : upstream) (signature : option string)
  (payload : body) : M response :=
  catch (ok <- signature_gate cfg signature payload ;;
         if negb ok then ret resp401 else
         event <- parse_event payload ;;
         t <- get_prop event "type" ;;
         to_primitive t ;;
         writeLog (LogEventReceived t) ;;
         dispatch up event ;;
         ret resp200)
        on_error.

(** The default [limit] of both middlewares, ['100kb'], in bytes. *)
Definition body_limit : Z := 102400.

Definition utf8_bom : string := String "239"%char (String "187"%char (String "191"%char EmptyString)).

(** The UTF-8 decoding of body-parser (iconv-lite) drops a leading BOM. *)
Definition strip_bom (s : string) : string :=
  if String.prefix utf8_bom s then substring 3 (String.length s - 3) s else s.

(** [express.json()] (strict) on a body within the limit: after the BOM is
    dropped, an empty body is [{}]; otherwise the first non-whitespace
    character must open an object or an array, and the body must parse; a
    failure is answered 400 by Express before any route. *)
Definition json_middleware (raw : string) : option jsval :=
  let s := strip_bom raw in
  if String.eqb s "" then Some (JObj [])
  else match Json.first_char s with
       | Some c => if Ascii.eqb c "{" || Ascii.eqb c "[" then Json.parse s else None
       | None => None
       end.

Inductive route_path := PathRoot | PathWebhook.

(** A POST request.  [json_body]: it carries a body (a [Content-Length]
    or [Transfer-Encoding] header) and its [Content-Type] is
    [application/json], the type both middlewares read. *)
Record request := {
  path : route_path;
  x_daily_signature : option string;
  x_signature : option string;
  json_body : bool;
  raw_body : string
}.

(** [req.headers['x-daily-signature'] || req.headers['x-signature']] *)
Definition signature_of (req : request) : option string :=
  if truthy_opt (x_daily_signature req) then x_daily_signature req else x_signature req.

(** What the middlewares leave for the route: [inl] the [req.body] it
    reads, [inr] the answer Express gives before any route.  A body the
    middlewares do not read is [unread_body]; a body read beyond the limit
    is answered 413; [express.raw] (mounted on [/webhook]) keeps the bytes
    as a [Buffer] and [express.json] then skips the request; on [/],
    [express.json] parses the body or answers 400. *)
Definition route_payload (cfg : config) (req : request) : body + response :=
  if negb (json_body req) then inl (BodyParsed (unread_body (body_parser cfg)))
  else if Z.ltb body_limit (Z.of_nat (String.length (raw_body req))) then inr resp413
  else match path req with
       | PathWebhook => inl (BodyBuffer (raw_body req))
       | PathRoot =>
           match json_middleware (raw_body req) with
           | Some v => inl (BodyParsed v)
           | None => inr resp400
           end
       end.

(** The middlewares and the route a POST request reaches. *)
Definition handle (cfg : config) (up : upstream) (req : request) : M response :=
  match route_payload cfg req with
  | inr r => ret r
  | inl payload =>
      match path req with
      | PathWebhook => post_webhook cfg up (signature_of req) payload
      | PathRoot => post_root cfg up (signature_of req) payload
      end
  end.

(** The provider unreachable: every lookup is rejected. *)
Definition offline_upstream : upstream := {|
  get_recording := fun _ => FetchFailed;
  get_access_link := fun _ _ => FetchFailed
|}.

(* ------------------------------------------------------------------ *)
(** ** Process startup *)

Record env := {
  env_file_exists : bool;       (* a .env file in the working directory *)
  DAILY_API_KEY : option string;
  WEBHOOK_PORT : option string;
  LOG_FILE : option string
}.

(** What the process finds on its host: whether a path exists
    ([fs.existsSync]), whether [fs.mkdirSync(dir, { recursive: true })]
    succeeds, and whether [app.listen(PORT)] binds ([listen] accepts the
    port and the address is free). *)
Record host := {
  path_exists : string -> bool;
  mkdir_ok : string -> bool;
  listen_ok : string -> bool
}.

Inductive startup := Listening (port : string) | Exited (code : Z) | Running.

(** [process.env.X || dflt] *)
Definition env_or (v : option string) (dflt : string) : string :=
  match v with Some x => if String.eqb x "" then dflt else x | None => dflt end.

(** The position of the separator [path.dirname] cuts at: scanning from
    the end down to index 1, the first ['/'] met after a character other
    than ['/']. *)
Fixpoint dir_end (p : string) (i : nat) (matchedSlash : bool) : option nat :=
  match i with
  | O => None
  | S j =>
      match String.get i p with
      | Some c =>
          if Ascii.eqb c "/" then (if matchedSlash then dir_end p j true else Some i)
          else dir_end p j false
      | None => dir_end p j matchedSlash
      end
  end.

(** [path.posix.dirname(p)] *)
Definition dirname (p : string) : string :=
  match p with
  | EmptyString => "."
  | String c _ =>
      let hasRoot := Ascii.eqb c "/" in
      match dir_end p (String.length p - 1) true with
      | None => if hasRoot then "/" else "."
      | Some e => if hasRoot && Nat.eqb e 1 then "//" else substring 0 e p
      end
  end.

Definition port_of (e : env) : string := env_or (WEBHOOK_PORT e) "3001".
Definition log_file_of (e : env) : string := env_or (LOG_FILE e) "./recording_events.log".

(** webhook-server.js, lines 9-24 and 334: the log directory is created
    when missing and [app.listen(PORT)] is called.  A [mkdirSync] that
    throws, a port [listen] refuses (it throws) and a failed bind (an
    unhandled ['error'] event) all end the process with status 1.  The
    environment is read only for the port, the log path and the secret. *)
Definition webhook_server_startup (h : host) (e : env) : startup :=
  let logDir := dirname (log_file_of e) in
  if negb (path_exists h logDir) && negb (mkdir_ok h logDir) then Exited 1
  else if listen_ok h (port_of e) then Listening (port_of e) else Exited 1.

(** daily-test.js, lines 11-31: the CLI stops when [.env] is missing or
    [DAILY_API_KEY] is unset. *)
Definition daily_test_startup (e : env) : startup :=
  if negb (env_file_exists e) then Exited 1
  else if negb (truthy_opt (DAILY_API_KEY e)) then Exited 1
  else Running.

(* ------------------------------------------------------------------ *)
(** ** Notions used by the properties *)

Definition is_byte (b : byte) : Prop := 0 <= b < 256.

(** The digest the receiver expects for a raw body under a secret. *)
Definition expected_digest (secret raw : string) : string :=
  hex_encode (hmac_sha256 (bytes_of_string secret) (bytes_of_string raw)).

Definition prepend (x : effect) {A} (m : M A) : M A := (x :: fst m, snd m).

Definition field (fs : list (string * jsval)) (k : string) : jsval :=
  match lookup_field k fs with Some x => x | None => JUndef end.

Definition known_type (t : string) : bool :=
  String.eqb t "recording.started" || String.eqb t "recording.ready-to-download"
  || String.eqb t "recording.error".

(** What a route does once the body is authenticated and decoded. *)
Definition after_parse (p : route_path) (up : upstream) (event : jsval) : M response :=
  match p with
  | PathWebhook => dispatch up event ;; ret resp200
  | PathRoot =>
      t <- get_prop event "type" ;;
      to_primitive t ;;
      writeLog (LogEventReceived t) ;;
      dispatch up event ;;
      ret resp200
  end.

(** The extra line the root route writes before dispatching. *)
Definition received_line (p : route_path) (t : jsval) : list effect :=
  match p with
  | PathRoot => [WriteLog (LogEventReceived t)]
  | PathWebhook => []
  end.

Definition kind_of (t : string) : option event_kind :=
  if String.eqb t "recording.started" then Some KStarted
  else if String.eqb t "recording.ready-to-download" then Some KReady
  else if String.eqb t "recording.error" then Some KError
  else None.

(** The enriched line of a [recording.ready-to-download] event whose two
    lookups failed. *)
Definition ready_line_offline (pfs : list (string * jsval)) : log_entry :=
  LogReady (field pfs "room_name") (field pfs "recording_id") (field pfs "duration")
           (field pfs "start_ts") (not_available (field pfs "s3_key"))
           (JStr "Not available") (JStr "Not available").

(** A payload whose fields the log message can interpolate. *)
Definition ready_payload_ok (pfs : list (string * jsval)) : bool :=
  forallb prim_ok [field pfs "room_name"; field pfs "recording_id"; field pfs "duration";
                   field pfs "start_ts"; field pfs "s3_key"].

Definition sample_secret : string := "sekret".
Definition signed_config : config := {| WEBHOOK_SECRET := Some sample_secret; body_parser := BodyParser1 |}.
Definition open_config : config := {| WEBHOOK_SECRET := None; body_parser := BodyParser1 |}.

(** The configuration with the secret removed. *)
Definition without_secret (cfg : config) : config :=
  {| WEBHOOK_SECRET := None; body_parser := body_parser cfg |}.

(** The configuration with a given secret. *)
Definition with_secret (secret : string) (cfg : config) : config :=
  {| WEBHOOK_SECRET := Some secret; body_parser := body_parser cfg |}.

Definition signed_request (p : route_path) (raw : string) : request := {|
  path := p;
  x_daily_signature := Some ("sha256=" ++ expected_digest sample_secret raw)%string;
  x_signature := None;
  json_body := true;
  raw_body := raw
|}.

Definition unsigned_request (p : route_path) (raw : string) : request := {|
  path := p; x_daily_signature := None; x_signature := None; json_body := true; raw_body := raw
|}.

(** JSON texts of the sample requests, written with [']' in place of the
    double quote. *)
Fixpoint json_text (s : string) : string :=
  match s with
  | EmptyString => EmptyString
  | String c r => String (if Ascii.eqb c "'" then "034"%char else c) (json_text r)
  end.

Definition started_body : string :=
  json_text "{'type':'recording.started','payload':{'room_name':'demo','recording_id':'r1','started_by':'alice','start_ts':1700000000}}".
Definition unknown_body : string := json_text "{'type':'meeting.ended','payload':{}}".
Definition no_payload_body : string := json_text "{'type':'recording.error'}".
Definition ready_body : string :=
  json_text "{'type':'recording.ready-to-download','payload':{'room_name':'demo','recording_id':'r1','duration':95,'start_ts':1700000000}}".


(** The environment with [DAILY_API_KEY] replaced. *)
Definition with_api_key (k : option string) (e : env) : env := {|
  env_file_exists := env_file_exists e; DAILY_API_KEY := k;
  WEBHOOK_PORT := WEBHOOK_PORT e; LOG_FILE := LOG_FILE e
|}.

(** The default environment without an API key, and a host on which the
    working directory exists and port 3001 is free. *)
Definition keyless_env : env := {|
  env_file_exists := true; DAILY_API_KEY := None; WEBHOOK_PORT := None; LOG_FILE := None
|}.

Definition plain_host : host := {|
  path_exists := fun p => String.eqb p ".";
  mkdir_ok := fun _ => false;
  listen_ok := fun p => String.eqb p "3001"
|}.


(** ** Accounting of a request's effects *)







(** [String.prototype.toUpperCase] on ASCII text. *)
Definition upper_ascii (c : ascii) : ascii :=
  let n := nat_of_ascii c in
  if Nat.leb 97 n && Nat.leb n 122 then ascii_of_nat (n - 32) else c.

Fixpoint to_upper (s : string) : string :=
  match s with
  | EmptyString => EmptyString
  | String c r => String (upper_ascii c) (to_upper r)
  end.


(* ------------------------------------------------------------------ *)
(** ** daily-test.js: the recording share URL (lines 245-250) *)

(** The string after the first [n] characters. *)
Fixpoint skip (n : nat) (s : string) : string :=
  match n, s with
  | O, _ => s
  | S n', String _ r => skip n' r
  | S _, EmptyString => EmptyString
  end.

(** [s.replace(pat, rep)] with a string pattern and a replacement without
    [$] patterns: only the first occurrence is replaced. *)
Fixpoint replace_first (pat rep s : string) : string :=
  if String.prefix pat s then (rep ++ skip (String.length pat) s)%string
  else match s with
       | EmptyString => EmptyString
       | String c r => String c (replace_first pat rep r)
       end.

(** Whether [pat] occurs in [s]. *)
Fixpoint occurs (pat s : string) : bool :=
  String.prefix pat s || match s with EmptyString => false | String _ r => occurs pat r end.

(** [getRecordingShareUrl(shareToken)] for [process.env.DAILY_DOMAIN]
    ([None] when unset); the interpolated token is taken as its string. *)
Definition getRecordingShareUrl (DAILY_DOMAIN : option string) (shareToken : string) : string :=
  let domain := match DAILY_DOMAIN with
                | Some d => if String.eqb d "" then "api.daily.co" else d
                | None => "api.daily.co"
                end in
  ("https://" ++ replace_first ".daily.co" "" domain ++ ".daily.co/rec/" ++ shareToken)%string.

(* ================================================================== *)
(** * Properties *)

(** ** Digests and hex *)

Lemma word_bytes_length : forall w, List.length (word_bytes w) = 4%nat.
Proof. reflexivity. Qed.

Lemma word_bytes_range : forall w, Forall is_byte (word_bytes w).
Proof.
  intro w; unfold word_bytes, is_byte.
  repeat constructor; apply Z.mod_pos_bound; lia.
Qed.

Lemma hash_length : forall m, List.length (Sha256.hash m) = 32%nat.
Proof. intro m; reflexivity. Qed.

Lemma hash_range : forall m, Forall is_byte (Sha256.hash m).
Proof.
  intro m; unfold Sha256.hash, Sha256.digest_of.
  repeat (apply Forall_app; split); apply word_bytes_range.
Qed.

Lemma hmac_length : forall k m, List.length (hmac_sha256 k m) = 32%nat.
Proof. intros; apply hash_length. Qed.

Lemma hmac_range : forall k m, Forall is_byte (hmac_sha256 k m).
Proof. intros; apply hash_range. Qed.

(** The model of the digest agrees with the published test vectors: the
    SHA-256 of [abc], and HMAC-SHA256 case 2 of RFC 4231. *)
Lemma sha256_abc :
  hex_encode (Sha256.hash (bytes_of_string "abc"))
  = "ba7816bf8f01cfea414140de5dae2223b00361a396177a9cb410ff61f20015ad".
Proof. vm_compute; reflexivity. Qed.

Lemma hmac_rfc4231_case2 :
  hex_encode (hmac_sha256 (bytes_of_string "Jefe") (bytes_of_string "what do ya want for nothing?"))
  = "5bdcc146bf60754e6a042426089575c75a003f089d2739839dec58b964ec3843".
Proof. vm_compute; reflexivity. Qed.

Lemma hex_val_hex_char : forall n, 0 <= n < 16 -> hex_val (hex_char n) = Some n.
Proof.
  intros n Hn.
  rewrite <- (Z2Nat.id n) by lia.
  assert (Hk : (Z.to_nat n < 16)%nat) by lia.
  revert Hk; generalize (Z.to_nat n) as k; intros k Hk.
  do 16 (destruct k as [| k]; [reflexivity |]); lia.
Qed.

Lemma hex_decode_encode : forall bs, Forall is_byte bs -> hex_decode (hex_encode bs) = bs.
Proof.
  induction bs as [| b bs IH]; intro Hall; [reflexivity |].
  inversion Hall as [| ? ? Hb Hrest]; subst; unfold is_byte in Hb.
  pose proof (Z.div_mod b 16 ltac:(lia)) as Hdm.
  pose proof (Z.mod_pos_bound b 16 ltac:(lia)) as Hm.
  cbn [hex_encode hex_decode].
  rewrite (hex_val_hex_char (b / 16)) by lia.
  rewrite (hex_val_hex_char (b mod 16)) by lia.
  rewrite IH by exact Hrest. f_equal; lia.
Qed.

Lemma bytes_eqb_refl : forall bs, bytes_eqb bs bs = true.
Proof. induction bs; simpl; [reflexivity | rewrite Z.eqb_refl; exact IHbs]. Qed.

Lemma hex_char_not_s : forall n, 0 <= n < 16 -> Ascii.eqb (hex_char n) "s" = false.
Proof.
  intros n Hn.
  rewrite <- (Z2Nat.id n) by lia.
  assert (Hk : (Z.to_nat n < 16)%nat) by lia.
  revert Hk; generalize (Z.to_nat n) as k; intros k Hk.
  do 16 (destruct k as [| k]; [reflexivity |]); lia.
Qed.

Lemma substring_0_all : forall s m, (String.length s <= m)%nat -> substring 0 m s = s.
Proof.
  induction s as [| c s IH]; intros m Hm; destruct m; simpl in *; try reflexivity; try lia.
  rewrite IH by lia; reflexivity.
Qed.

(** The [sha256=] tag is removed exactly. *)
Lemma strip_prefix_tagged : forall d, strip_prefix ("sha256=" ++ d) = d.
Proof.
  intro d; unfold strip_prefix.
  assert (Hp : String.prefix "sha256=" ("sha256=" ++ d) = true) by (destruct d; reflexivity).
  rewrite Hp; simpl; apply substring_0_all; lia.
Qed.

(** A lowercase hex digest never starts with the tag. *)
Lemma strip_prefix_hex : forall bs, Forall is_byte bs -> strip_prefix (hex_encode bs) = hex_encode bs.
Proof.
  intros [| b bs] Hall; [reflexivity |].
  inversion Hall as [| ? ? Hb _]; subst; unfold is_byte in Hb.
  assert (Hq : 0 <= b / 16 < 16)
    by (split; [apply Z.div_pos | apply Z.div_lt_upper_bound]; lia).
  pose proof (hex_char_not_s (b / 16) Hq) as Hs.
  unfold strip_prefix; cbn [hex_encode String.prefix].
  destruct (ascii_dec "s" (hex_char (b / 16))) as [E | _]; [| reflexivity].
  rewrite <- E in Hs; discriminate Hs.
Qed.

Lemma verify_correct_digest : forall raw secret,
  verifyWebhookSignature (BodyBuffer raw) (Some (expected_digest secret raw)) (Some secret)
  = ([], Ok (negb (String.eqb secret ""))).
Proof.
  intros raw secret; unfold verifyWebhookSignature, expected_digest.
  set (h := hmac_sha256 (bytes_of_string secret) (bytes_of_string raw)).
  assert (Hlen : List.length h = 32%nat) by apply hmac_length.
  assert (Hr : Forall is_byte h) by apply hmac_range.
  assert (Hne : truthy_opt (Some (hex_encode h)) = true)
    by (destruct h; [discriminate | reflexivity]).
  clearbody h; rewrite Hne; unfold truthy_opt at 1.
  destruct (String.eqb secret "") eqn:Es; [reflexivity |]; cbn [negb orb].
  rewrite strip_prefix_hex, hex_decode_encode by exact Hr.
  unfold timingSafeEqual; rewrite Nat.eqb_refl, bytes_eqb_refl; reflexivity.
Qed.

(** ** The signature verifier *)

(** Removing the tag leaves any non-empty, untagged signature unchanged. *)
Lemma verify_tag_strip : forall payload d secret,
  strip_prefix d = d -> truthy_opt (Some d) = true ->
  verifyWebhookSignature payload (Some ("sha256=" ++ d)%string) secret
  = verifyWebhookSignature payload (Some d) secret.
Proof.
  intros payload d secret Hs Ht.
  unfold verifyWebhookSignature.
  replace (truthy_opt (Some ("sha256=" ++ d)%string)) with true by reflexivity.
  rewrite Ht.
  destruct secret as [sec |]; [| reflexivity].
  destruct payload as [raw | v]; cbn beta iota; [| reflexivity].
  rewrite strip_prefix_tagged, Hs; reflexivity.
Qed.

(** C6: presenting the correct digest with the [sha256=] tag or as bare
    hex gives the same verdict; both are [true] under any non-empty secret. *)
Theorem verify_prefix_insensitive : forall raw secret,
  verifyWebhookSignature (BodyBuffer raw)
    (Some ("sha256=" ++ expected_digest secret raw)%string) (Some secret)
  = verifyWebhookSignature (BodyBuffer raw) (Some (expected_digest secret raw)) (Some secret)
  /\ verifyWebhookSignature (BodyBuffer raw) (Some (expected_digest secret raw)) (Some secret)
     = ([], Ok (negb (String.eqb secret ""))).
Proof.
  intros raw secret; split; [| apply verify_correct_digest].
  assert (Hne : truthy_opt (Some (expected_digest secret raw)) = true).
  { unfold expected_digest.
    destruct (hmac_sha256 (bytes_of_string secret) (bytes_of_string raw)) eqn:E.
    - pose proof (hmac_length (bytes_of_string secret) (bytes_of_string raw)) as L.
      rewrite E in L; discriminate L.
    - reflexivity. }
  assert (Hstrip : strip_prefix (expected_digest secret raw) = expected_digest secret raw)
    by (apply strip_prefix_hex, hmac_range).
  apply verify_tag_strip; assumption.
Qed.

(** C1 (as the code behaves): with a secret and a signature present, a
    signature whose hex decoding is not 32 bytes long (non-hex text, a
    short or long digest) makes [crypto.timingSafeEqual] throw a
    [RangeError]; the verifier does not return [false]. *)
Theorem verify_throws_on_length_mismatch : forall raw secret signature,
  String.eqb secret "" = false ->
  String.eqb signature "" = false ->
  List.length (hex_decode (strip_prefix signature)) <> 32%nat ->
  verifyWebhookSignature (BodyBuffer raw) (Some signature) (Some secret) = ([], Err RangeError).
Proof.
  intros raw secret signature Hs Hg Hlen.
  unfold verifyWebhookSignature, truthy_opt; rewrite Hs, Hg; cbn [negb orb].
  unfold timingSafeEqual.
  rewrite hex_decode_encode by apply hmac_range.
  rewrite hmac_length.
  destruct (Nat.eqb 32 (List.length (hex_decode (strip_prefix signature)))) eqn:E;
    [apply Nat.eqb_eq in E; congruence | reflexivity].
Qed.

Lemma verify_throws_on_length_mismatch_witness :
  verifyWebhookSignature (BodyBuffer "{}") (Some "sha256=not-hex") (Some "sekret")
  = ([], Err RangeError).
Proof.
  apply verify_throws_on_length_mismatch; [reflexivity | reflexivity | vm_compute; lia].
Defined.

(** ** Monad laws used below *)

Lemma bind_ret_l : forall A B (a : A) (f : A -> M B), bind (ret a) f = f a.
Proof. intros; simpl; destruct (f a); reflexivity. Qed.

Lemma bind_tell : forall B x (f : unit -> M B), bind (tell x) f = prepend x (f tt).
Proof. intros; unfold tell, bind, prepend; destruct (f tt); reflexivity. Qed.

Lemma bind_err : forall A B e (f : A -> M B), bind (throw e) f = throw e.
Proof. reflexivity. Qed.

Lemma bind_prepend : forall A B x (m : M A) (f : A -> M B),
  bind (prepend x m) f = prepend x (bind m f).
Proof.
  intros A B x [l [a | e]] f; unfold prepend, bind; simpl; [destruct (f a) |]; reflexivity.
Qed.

Lemma catch_prepend : forall A x (m : M A) h, catch (prepend x m) h = prepend x (catch m h).
Proof.
  intros A x [l [a | e]] h; unfold prepend, catch; simpl; [| destruct (h e)]; reflexivity.
Qed.

Lemma catch_ret : forall A (a : A) h, catch (ret a) h = ret a.
Proof. reflexivity. Qed.

Lemma catch_err : forall A e (h : exn -> M A), catch (throw e) h = h e.
Proof. intros; unfold catch, throw; destruct (h e); reflexivity. Qed.

Lemma to_primitive_ok : forall v, prim_ok v = true -> to_primitive v = ret tt.
Proof. intros v H; unfold to_primitive; rewrite H; reflexivity. Qed.


Ltac msimp :=
  repeat (first [ rewrite bind_ret_l | rewrite bind_tell | rewrite bind_err
                | rewrite bind_prepend | rewrite catch_prepend | rewrite catch_ret
                | rewrite catch_err ]; cbn [negb truthy]).

Ltac lit_eqb := cbv beta iota zeta delta [String.eqb Ascii.eqb Bool.eqb].

(** ** Reaching the dispatcher *)

Lemma get_prop_obj : forall fs k, get_prop (JObj fs) k = ret (field fs k).
Proof. reflexivity. Qed.

Lemma route_payload_webhook : forall cfg req,
  path req = PathWebhook -> json_body req = true ->
  Z.of_nat (String.length (raw_body req)) <= body_limit ->
  route_payload cfg req = inl (BodyBuffer (raw_body req)).
Proof.
  intros cfg req Hp Hj Hl; unfold route_payload; rewrite Hj, Hp.
  replace (body_limit <? Z.of_nat (String.length (raw_body req))) with false
    by (symmetry; apply Z.ltb_ge; exact Hl).
  reflexivity.
Qed.




Lemma handle_passes : forall cfg up req payload v,
  route_payload cfg req = inl payload ->
  signature_gate cfg (signature_of req) payload = ret true ->
  parse_event payload = ret v ->
  handle cfg up req = catch (after_parse (path req) up v) on_error.
Proof.
  intros cfg up req payload v Hr Hg Hp.
  unfold handle; rewrite Hr.
  destruct (path req); unfold post_webhook, post_root, after_parse;
    rewrite Hg; msimp; rewrite Hp; msimp; reflexivity.
Qed.

Lemma dispatch_unknown : forall up fs t,
  field fs "type" = JStr t -> known_type t = false ->
  dispatch up (JObj fs) = tell (WriteLog (LogEventType (JStr t))).
Proof.
  intros up fs t Ht Hk.
  unfold known_type in Hk; apply orb_false_iff in Hk as [Hk H3];
    apply orb_false_iff in Hk as [H1 H2].
  unfold dispatch; rewrite get_prop_obj, Ht; msimp.
  rewrite H1, H2, H3, to_primitive_ok by reflexivity; msimp; reflexivity.
Qed.

(** After the root route's [EVENT RECEIVED] line, both routes agree. *)
Lemma after_parse_root : forall up v t,
  get_prop v "type" = ret t -> prim_ok t = true ->
  after_parse PathRoot up v
  = prepend (WriteLog (LogEventReceived t)) (after_parse PathWebhook up v).
Proof.
  intros up v t Ht Hp; unfold after_parse.
  rewrite Ht; msimp; rewrite to_primitive_ok by exact Hp; msimp.
  unfold writeLog; msimp; reflexivity.
Qed.

Lemma after_parse_paths : forall p up fs t,
  field fs "type" = t -> prim_ok t = true ->
  catch (after_parse p up (JObj fs)) on_error
  = (received_line p t ++ fst (catch (after_parse PathWebhook up (JObj fs)) on_error),
     snd (catch (after_parse PathWebhook up (JObj fs)) on_error)).
Proof.
  intros p up fs t Ht Hp; destruct p.
  - rewrite (after_parse_root up (JObj fs) t)
      by first [exact Hp | rewrite get_prop_obj, Ht; reflexivity].
    rewrite catch_prepend; reflexivity.
  - simpl; destruct (catch _ _); reflexivity.
Qed.

Lemma dispatch_missing_payload : forall up fs t k,
  field fs "type" = JStr t -> kind_of t = Some k -> truthy (field fs "payload") = false ->
  dispatch up (JObj fs) = prepend (RunHandler k) (tell (WriteLog (LogInvalidEvent k))).
Proof.
  intros up fs t k Ht Hk Hp.
  unfold dispatch; rewrite get_prop_obj, Ht; msimp.
  unfold kind_of in Hk.
  destruct (String.eqb t "recording.started");
    [| destruct (String.eqb t "recording.ready-to-download");
       [| destruct (String.eqb t "recording.error")]];
    inversion Hk; subst;
    [unfold handleRecordingStarted | unfold handleRecordingReady | unfold handleRecordingError];
    msimp; rewrite get_prop_obj; msimp; rewrite Hp; cbn [negb]; unfold writeLog; reflexivity.
Qed.

Lemma download_url_offline : forall up id,
  get_recording up id = FetchFailed -> getRecordingDownloadUrl up id = ret JNull.
Proof.
  intros up id H; unfold getRecordingDownloadUrl, to_primitive.
  destruct (prim_ok id); msimp; [rewrite H; reflexivity | reflexivity].
Qed.

Lemma access_link_offline : forall up id secs,
  get_access_link up id secs = FetchFailed -> getRecordingAccessLink up id secs = ret JNull.
Proof.
  intros up id secs H; unfold getRecordingAccessLink, to_primitive.
  destruct (prim_ok id); msimp; [rewrite H; reflexivity | reflexivity].
Qed.

Lemma prim_ok_not_available : forall v, prim_ok v = true -> prim_ok (not_available v) = true.
Proof. intros v H; unfold not_available, js_or; destruct (truthy v); [exact H | reflexivity]. Qed.

Lemma dispatch_ready_offline : forall up fs pfs,
  field fs "type" = JStr "recording.ready-to-download" ->
  field fs "payload" = JObj pfs ->
  ready_payload_ok pfs = true ->
  get_recording up (field pfs "recording_id") = FetchFailed ->
  get_access_link up (field pfs "recording_id") 3600 = FetchFailed ->
  dispatch up (JObj fs)
  = prepend (RunHandler KReady) (tell (WriteLog (ready_line_offline pfs))).
Proof.
  intros up fs pfs Ht Hp Hok Hr Ha.
  unfold ready_payload_ok in Hok; cbn [forallb] in Hok.
  repeat match type of Hok with
         | _ && _ = true => apply andb_prop in Hok as [?Hf Hok]
         end.
  unfold dispatch; rewrite get_prop_obj, Ht; msimp; lit_eqb.
  unfold handleRecordingReady; msimp.
  rewrite get_prop_obj, Hp; msimp.
  rewrite !get_prop_obj; msimp.
  rewrite (to_primitive_ok (field pfs "start_ts")) by assumption; msimp.
  rewrite (to_primitive_ok (field pfs "duration")) by assumption; msimp.
  rewrite download_url_offline, access_link_offline by assumption; msimp.
  rewrite (to_primitive_ok (field pfs "room_name")) by assumption; msimp.
  rewrite (to_primitive_ok (field pfs "recording_id")) by assumption; msimp.
  rewrite (to_primitive_ok (not_available (field pfs "s3_key")))
    by (apply prim_ok_not_available; assumption); msimp.
  rewrite !to_primitive_ok by reflexivity; msimp.
  unfold writeLog; reflexivity.
Qed.

(** ** Event dispatch *)

(** C7: an authenticated (or unauthenticated-mode) request whose decoded
    event is an object with a string [type] outside the three recording
    kinds is acknowledged with 200 after a line recording that type. *)
Theorem unknown_type_acknowledged : forall cfg up req payload fs t,
  route_payload cfg req = inl payload ->
  signature_gate cfg (signature_of req) payload = ret true ->
  parse_event payload = ret (JObj fs) ->
  field fs "type" = JStr t ->
  known_type t = false ->
  handle cfg up req
  = (received_line (path req) (JStr t) ++ [WriteLog (LogEventType (JStr t))], Ok resp200).
Proof.
  intros cfg up req payload fs t Hr Hg Hp Ht Hk.
  rewrite (handle_passes cfg up req payload (JObj fs)) by assumption.
  rewrite (after_parse_paths _ _ _ (JStr t)) by first [assumption | reflexivity].
  unfold after_parse; rewrite (dispatch_unknown up fs t) by assumption.
  msimp; reflexivity.
Qed.

Lemma unknown_type_acknowledged_witness :
  handle signed_config offline_upstream (signed_request PathWebhook unknown_body)
  = ([WriteLog (LogEventType (JStr "meeting.ended"))], Ok resp200).
Proof.
  apply (unknown_type_acknowledged signed_config offline_upstream
           (signed_request PathWebhook unknown_body) (BodyBuffer unknown_body)
           [("type", JStr "meeting.ended"); ("payload", JObj [])] "meeting.ended");
    vm_compute; reflexivity.
Defined.

(** C10: an accepted event of one of the three recording kinds without a
    [payload] (more generally with a falsy one) runs its handler, which
    writes an [INVALID EVENT] line and returns; the request is still
    acknowledged with 200. *)
Theorem missing_payload_acknowledged : forall cfg up req payload fs t k,
  route_payload cfg req = inl payload ->
  signature_gate cfg (signature_of req) payload = ret true ->
  parse_event payload = ret (JObj fs) ->
  field fs "type" = JStr t ->
  kind_of t = Some k ->
  truthy (field fs "payload") = false ->
  handle cfg up req
  = (received_line (path req) (JStr t) ++ [RunHandler k; WriteLog (LogInvalidEvent k)],
     Ok resp200).
Proof.
  intros cfg up req payload fs t k Hr Hg Hp Ht Hk Hf.
  rewrite (handle_passes cfg up req payload (JObj fs)) by assumption.
  rewrite (after_parse_paths _ _ _ (JStr t)) by first [assumption | reflexivity].
  unfold after_parse; rewrite (dispatch_missing_payload up fs t k) by assumption.
  unfold tell, prepend; reflexivity.
Qed.

Lemma missing_payload_acknowledged_witness :
  handle open_config offline_upstream (unsigned_request PathRoot no_payload_body)
  = ([WriteLog (LogEventReceived (JStr "recording.error")); RunHandler KError;
      WriteLog (LogInvalidEvent KError)], Ok resp200).
Proof.
  apply (missing_payload_acknowledged open_config offline_upstream
           (unsigned_request PathRoot no_payload_body)
           (BodyParsed (JObj [("type", JStr "recording.error")]))
           [("type", JStr "recording.error")] "recording.error" KError);
    vm_compute; reflexivity.
Defined.

(** C8: a [recording.ready-to-download] event with a well-formed payload
    whose two lookups both fail still gets exactly one enriched line, with
    the download and streaming URLs ["Not available"], and a 200 (on [/]
    the route's [EVENT RECEIVED] marker precedes it). *)
Theorem ready_enrichment_failure_logged : forall cfg up req payload fs pfs,
  route_payload cfg req = inl payload ->
  signature_gate cfg (signature_of req) payload = ret true ->
  parse_event payload = ret (JObj fs) ->
  field fs "type" = JStr "recording.ready-to-download" ->
  field fs "payload" = JObj pfs ->
  ready_payload_ok pfs = true ->
  get_recording up (field pfs "recording_id") = FetchFailed ->
  get_access_link up (field pfs "recording_id") 3600 = FetchFailed ->
  handle cfg up req
  = (received_line (path req) (JStr "recording.ready-to-download")
       ++ [RunHandler KReady; WriteLog (ready_line_offline pfs)], Ok resp200).
Proof.
  intros cfg up req payload fs pfs Hr Hg Hp Ht Hpl Hok Hrec Hacc.
  rewrite (handle_passes cfg up req payload (JObj fs)) by assumption.
  rewrite (after_parse_paths _ _ _ (JStr "recording.ready-to-download"))
    by first [assumption | reflexivity].
  unfold after_parse; rewrite (dispatch_ready_offline up fs pfs) by assumption.
  unfold tell, prepend; reflexivity.
Qed.

Lemma ready_enrichment_failure_logged_witness :
  handle signed_config offline_upstream (signed_request PathWebhook ready_body)
  = ([RunHandler KReady;
      WriteLog (LogReady (JStr "demo") (JStr "r1") (JNum "95") (JNum "1700000000")
                 (JStr "Not available") (JStr "Not available") (JStr "Not available"))],
     Ok resp200).
Proof.
  apply (ready_enrichment_failure_logged signed_config offline_upstream
           (signed_request PathWebhook ready_body) (BodyBuffer ready_body)
           [("type", JStr "recording.ready-to-download");
            ("payload", JObj [("room_name", JStr "demo"); ("recording_id", JStr "r1");
                              ("duration", JNum "95"); ("start_ts", JNum "1700000000")])]
           [("room_name", JStr "demo"); ("recording_id", JStr "r1");
            ("duration", JNum "95"); ("start_ts", JNum "1700000000")]);
    vm_compute; reflexivity.
Defined.

(** ** Authentication *)

Lemma bytes_eqb_eq : forall a b, bytes_eqb a b = true -> a = b.
Proof.
  induction a as [| x a IH]; intros [| y b] H; simpl in H; try discriminate; [reflexivity |].
  apply andb_prop in H as [Hxy Hab]; apply Z.eqb_eq in Hxy; subst; f_equal; auto.
Qed.

Lemma gate_open : forall cfg sig payload,
  truthy_opt (WEBHOOK_SECRET cfg) && truthy_opt sig = false ->
  signature_gate cfg sig payload = ret true.
Proof. intros cfg sig payload H; unfold signature_gate; rewrite H; reflexivity. Qed.

Lemma route_payload_parser : forall c1 c2 req,
  body_parser c1 = body_parser c2 -> route_payload c1 req = route_payload c2 req.
Proof. intros c1 c2 req H; unfold route_payload; rewrite H; reflexivity. Qed.

Lemma handle_unsigned : forall cfg up req,
  truthy_opt (signature_of req) = false -> handle cfg up req = handle (without_secret cfg) up req.
Proof.
  intros cfg up req H; unfold handle.
  rewrite (route_payload_parser (without_secret cfg) cfg) by reflexivity.
  destruct (route_payload cfg req) as [payload |]; [| reflexivity].
  assert (Hg : forall c, signature_gate c (signature_of req) payload = ret true)
    by (intro c; apply gate_open; rewrite H, andb_false_r; reflexivity).
  destruct (path req); unfold post_webhook, post_root; rewrite !Hg; reflexivity.
Qed.

(** C2 (as the code behaves): on [/webhook], for a JSON request within
    the body limit (its body kept raw as a Buffer), with a secret
    configured and a signature header whose hex decodes to a 32-byte
    digest other than the HMAC of the raw body, the answer is 401 after
    the single authentication-failure line, with no handler run.  Without a signature
    header the check is skipped: the request is handled exactly as with no
    secret configured. *)
Theorem bad_signature_rejected :
  (forall cfg up req secret sg,
     path req = PathWebhook ->
     json_body req = true ->
     Z.of_nat (String.length (raw_body req)) <= body_limit ->
     WEBHOOK_SECRET cfg = Some secret ->
     String.eqb secret "" = false ->
     signature_of req = Some sg ->
     String.eqb sg "" = false ->
     List.length (hex_decode (strip_prefix sg)) = 32%nat ->
     hex_decode (strip_prefix sg)
       <> hmac_sha256 (bytes_of_string secret) (bytes_of_string (raw_body req)) ->
     handle cfg up req = ([WriteLog LogInvalidSignature], Ok resp401))
  /\ (forall cfg up req,
        truthy_opt (signature_of req) = false -> handle cfg up req = handle (without_secret cfg) up req).
Proof.
  split; [| exact handle_unsigned].
  intros cfg up req secret sg Hp Hj Hl Hc Hs Hsig Hg Hlen Hne.
  unfold handle; rewrite (route_payload_webhook cfg req Hp Hj Hl), Hp.
  unfold post_webhook, signature_gate; rewrite Hsig, Hc.
  cbn [truthy_opt]; rewrite Hs, Hg; cbn [negb andb].
  unfold verifyWebhookSignature; cbn [truthy_opt]; rewrite Hs, Hg; cbn [negb orb].
  unfold timingSafeEqual.
  rewrite hex_decode_encode by apply hmac_range.
  rewrite hmac_length, Hlen, Nat.eqb_refl.
  destruct (bytes_eqb (hmac_sha256 (bytes_of_string secret) (bytes_of_string (raw_body req)))
                      (hex_decode (strip_prefix sg))) eqn:E.
  - apply bytes_eqb_eq in E; congruence.
  - msimp; unfold writeLog; msimp; reflexivity.
Qed.

Lemma bad_signature_rejected_witness :
  handle signed_config offline_upstream
    {| path := PathWebhook;
       x_daily_signature :=
         Some "sha256=0000000000000000000000000000000000000000000000000000000000000000";
       x_signature := None; json_body := true; raw_body := started_body |}
  = ([WriteLog LogInvalidSignature], Ok resp401).
Proof.
  apply (proj1 bad_signature_rejected signed_config offline_upstream _ sample_secret
           "sha256=0000000000000000000000000000000000000000000000000000000000000000");
    vm_compute; first [reflexivity | discriminate].
Defined.

(** C2 as stated fails: with a secret configured, a request without a
    signature header is processed and acknowledged. *)
Lemma missing_signature_accepted :
  handle signed_config offline_upstream (unsigned_request PathWebhook started_body)
  = ([RunHandler KStarted;
      WriteLog (LogStarted (JStr "demo") (JStr "r1") (JStr "alice") (JNum "1700000000"))],
     Ok resp200).
Proof. vm_compute; reflexivity. Qed.

(** ** The two delivery paths *)






(** With a secret, a correctly signed request is acknowledged on
    [/webhook] but answered 500 on [/], where the HMAC is asked of the
    value parsed by [express.json] instead of the raw bytes. *)
Lemma signed_root_differs :
  handle signed_config offline_upstream (signed_request PathWebhook started_body)
  = ([RunHandler KStarted;
      WriteLog (LogStarted (JStr "demo") (JStr "r1") (JStr "alice") (JNum "1700000000"))],
     Ok resp200)
  /\ handle signed_config offline_upstream (signed_request PathRoot started_body)
     = ([WriteLog (LogWebhookError TypeError)], Ok resp500).
Proof. split; vm_compute; reflexivity. Qed.

(** ** Malformed bodies *)




(** ** Startup *)

(** C4 (as the code behaves): the receiver never reads [DAILY_API_KEY] at
    startup.  Without it, on a host where the log directory exists (or
    can be created) and the port binds, the server binds its port, while
    the sibling CLI (daily-test.js) exits with status 1; and whatever the
    host, the outcome of startup does not depend on the key. *)
Theorem receiver_starts_without_api_key : forall h e,
  env_file_exists e = true ->
  truthy_opt (DAILY_API_KEY e) = false ->
  path_exists h (dirname (log_file_of e)) || mkdir_ok h (dirname (log_file_of e)) = true ->
  listen_ok h (port_of e) = true ->
  webhook_server_startup h e = Listening (port_of e)
  /\ daily_test_startup e = Exited 1
  /\ (forall k, webhook_server_startup h (with_api_key k e) = webhook_server_startup h e).
Proof.
  intros h e Hf Hk Hd Hl; split; [| split].
  - unfold webhook_server_startup; rewrite <- negb_orb, Hd, Hl; reflexivity.
  - unfold daily_test_startup; rewrite Hf, Hk; reflexivity.
  - intro k; reflexivity.
Qed.

Lemma receiver_starts_without_api_key_witness :
  webhook_server_startup plain_host keyless_env = Listening "3001"
  /\ daily_test_startup keyless_env = Exited 1
  /\ (forall k, webhook_server_startup plain_host (with_api_key k keyless_env)
               = webhook_server_startup plain_host keyless_env).
Proof. apply receiver_starts_without_api_key; vm_compute; reflexivity. Defined.

(* ================================================================== *)
(** * Further properties of the receiver *)

(** ** Counting effects *)

























(** ** The signature gate and the route bodies *)













(** ** Accepted signatures *)

Lemma gate_accepts : forall cfg secret sg raw,
  WEBHOOK_SECRET cfg = Some secret ->
  String.eqb secret "" = false ->
  String.eqb sg "" = false ->
  hex_decode (strip_prefix sg) = hmac_sha256 (bytes_of_string secret) (bytes_of_string raw) ->
  signature_gate cfg (Some sg) (BodyBuffer raw) = ret true.
Proof.
  intros cfg secret sg raw Hc Hs Hg Hd.
  unfold signature_gate; rewrite Hc; cbn [truthy_opt]; rewrite Hs, Hg; cbn [negb andb].
  unfold verifyWebhookSignature; cbn [truthy_opt]; rewrite Hs, Hg; cbn [negb orb].
  unfold timingSafeEqual.
  rewrite hex_decode_encode by apply hmac_range.
  rewrite Hd, Nat.eqb_refl, bytes_eqb_refl; reflexivity.
Qed.

(** On [/webhook], with a secret configured, a JSON request within the
    body limit whose signature header decodes (after the optional
    [sha256=] tag is removed) to the HMAC-SHA256 of the raw body under
    that secret is handled exactly as when no secret is configured: the
    check passes silently. *)
Theorem signed_webhook_processed : forall cfg up req secret sg,
  path req = PathWebhook ->
  json_body req = true ->
  Z.of_nat (String.length (raw_body req)) <= body_limit ->
  WEBHOOK_SECRET cfg = Some secret ->
  String.eqb secret "" = false ->
  signature_of req = Some sg ->
  String.eqb sg "" = false ->
  hex_decode (strip_prefix sg) = hmac_sha256 (bytes_of_string secret) (bytes_of_string (raw_body req)) ->
  handle cfg up req = handle (without_secret cfg) up req.
Proof.
  intros cfg up req secret sg Hp Hj Hl Hc Hs Hsig Hg Hd.
  unfold handle.
  rewrite (route_payload_parser (without_secret cfg) cfg) by reflexivity.
  rewrite (route_payload_webhook cfg req Hp Hj Hl), Hp; unfold post_webhook.
  rewrite Hsig, (gate_accepts cfg secret) by assumption.
  rewrite gate_open by reflexivity; reflexivity.
Qed.

Lemma signed_webhook_processed_witness :
  handle signed_config offline_upstream (signed_request PathWebhook started_body)
  = handle open_config offline_upstream (signed_request PathWebhook started_body).
Proof.
  apply (signed_webhook_processed signed_config offline_upstream
           (signed_request PathWebhook started_body)
           sample_secret ("sha256=" ++ expected_digest sample_secret started_body)%string);
    vm_compute; first [reflexivity | discriminate].
Defined.

Lemma hex_val_upper : forall n, 0 <= n < 16 -> hex_val (upper_ascii (hex_char n)) = Some n.
Proof.
  intros n Hn.
  rewrite <- (Z2Nat.id n) by lia.
  assert (Hk : (Z.to_nat n < 16)%nat) by lia.
  revert Hk; generalize (Z.to_nat n) as k; intros k Hk.
  do 16 (destruct k as [| k]; [reflexivity |]); lia.
Qed.

Lemma hex_decode_upper : forall bs, Forall is_byte bs -> hex_decode (to_upper (hex_encode bs)) = bs.
Proof.
  induction bs as [| b bs IH]; intro Hall; [reflexivity |].
  inversion Hall as [| ? ? Hb Hrest]; subst; unfold is_byte in Hb.
  pose proof (Z.div_mod b 16 ltac:(lia)) as Hdm.
  pose proof (Z.mod_pos_bound b 16 ltac:(lia)) as Hm.
  cbn [hex_encode to_upper hex_decode].
  rewrite (hex_val_upper (b / 16)) by lia.
  rewrite (hex_val_upper (b mod 16)) by lia.
  rewrite IH by exact Hrest. f_equal; lia.
Qed.

Lemma hex_decode_encode_app : forall bs s,
  Forall is_byte bs -> hex_decode (hex_encode bs ++ s) = bs ++ hex_decode s.
Proof.
  induction bs as [| b bs IH]; intros s Hall; [reflexivity |].
  inversion Hall as [| ? ? Hb Hrest]; subst; unfold is_byte in Hb.
  pose proof (Z.div_mod b 16 ltac:(lia)) as Hdm.
  pose proof (Z.mod_pos_bound b 16 ltac:(lia)) as Hm.
  cbn [hex_encode append hex_decode].
  rewrite (hex_val_hex_char (b / 16)) by lia.
  rewrite (hex_val_hex_char (b mod 16)) by lia.
  rewrite IH by exact Hrest. cbn [List.app]; f_equal; lia.
Qed.

Lemma verify_accepts : forall raw secret sg,
  String.eqb secret "" = false -> String.eqb sg "" = false ->
  hex_decode (strip_prefix sg) = hmac_sha256 (bytes_of_string secret) (bytes_of_string raw) ->
  verifyWebhookSignature (BodyBuffer raw) (Some sg) (Some secret) = ([], Ok true).
Proof.
  intros raw secret sg Hs Hg Hd.
  unfold verifyWebhookSignature; cbn [truthy_opt]; rewrite Hs, Hg; cbn [negb orb].
  unfold timingSafeEqual.
  rewrite hex_decode_encode by apply hmac_range.
  rewrite Hd, Nat.eqb_refl, bytes_eqb_refl; reflexivity.
Qed.

(** [Buffer.from(s, 'hex')] reads upper-case digits too: the correct
    digest written in upper case, after the [sha256=] tag, is accepted. *)
Theorem verify_accepts_uppercase : forall raw secret,
  String.eqb secret "" = false ->
  verifyWebhookSignature (BodyBuffer raw)
    (Some ("sha256=" ++ to_upper (expected_digest secret raw))%string) (Some secret)
  = ([], Ok true).
Proof.
  intros raw secret Hs.
  apply verify_accepts; [exact Hs | reflexivity |].
  rewrite strip_prefix_tagged; unfold expected_digest.
  apply hex_decode_upper, hmac_range.
Qed.

Lemma verify_accepts_uppercase_witness :
  verifyWebhookSignature (BodyBuffer started_body)
    (Some ("sha256=" ++ to_upper (expected_digest sample_secret started_body))%string)
    (Some sample_secret)
  = ([], Ok true).
Proof. apply verify_accepts_uppercase; reflexivity. Defined.

(** [Buffer.from(s, 'hex')] stops at the first pair that is not two hex
    digits: the correct digest followed by any text that decodes to no
    byte (a single character, or a pair with a non-hex character first
    met) is accepted. *)
Theorem verify_ignores_trailing_text : forall raw secret junk,
  String.eqb secret "" = false ->
  hex_decode junk = [] ->
  verifyWebhookSignature (BodyBuffer raw)
    (Some ("sha256=" ++ expected_digest secret raw ++ junk)%string) (Some secret)
  = ([], Ok true).
Proof.
  intros raw secret junk Hs Hj.
  apply verify_accepts; [exact Hs | reflexivity |].
  rewrite strip_prefix_tagged; unfold expected_digest.
  rewrite hex_decode_encode_app by apply hmac_range.
  rewrite Hj, app_nil_r; reflexivity.
Qed.

Lemma verify_ignores_trailing_text_witness :
  verifyWebhookSignature (BodyBuffer started_body)
    (Some ("sha256=" ++ expected_digest sample_secret started_body ++ "zz")%string)
    (Some sample_secret)
  = ([], Ok true).
Proof. apply verify_ignores_trailing_text; reflexivity. Defined.

Lemma route_payload_root_parsed : forall cfg req payload,
  path req = PathRoot -> route_payload cfg req = inl payload ->
  exists v, payload = BodyParsed v.
Proof.
  intros cfg req payload Hp H; unfold route_payload in H; rewrite Hp in H.
  destruct (negb (json_body req)); [injection H as <-; eexists; reflexivity |].
  destruct (body_limit <? Z.of_nat (String.length (raw_body req))); [discriminate H |].
  destruct (json_middleware (raw_body req)); [injection H as <-; eexists; reflexivity | discriminate H].
Qed.

(** On [/], the signature check hashes the value the body middleware
    left in [req.body] (the parsed JSON, or the unread-body value), which
    [hmac.update] refuses: with a secret configured, every POST to [/]
    that carries a signature header and gets past the middleware is
    answered 500 after one error line, whatever the signature. *)
Theorem signed_root_rejected : forall cfg up req secret payload,
  path req = PathRoot ->
  WEBHOOK_SECRET cfg = Some secret ->
  String.eqb secret "" = false ->
  truthy_opt (signature_of req) = true ->
  route_payload cfg req = inl payload ->
  handle cfg up req = ([WriteLog (LogWebhookError TypeError)], Ok resp500).
Proof.
  intros cfg up req secret payload Hp Hc Hs Hg Hm.
  destruct (route_payload_root_parsed cfg req payload Hp Hm) as [v ->].
  unfold handle; rewrite Hm, Hp; unfold post_root.
  destruct (signature_of req) as [sg |]; [| discriminate Hg].
  assert (Eg : String.eqb sg "" = false)
    by (cbn [truthy_opt] in Hg; destruct (String.eqb sg ""); [discriminate Hg | reflexivity]).
  unfold signature_gate; rewrite Hc; cbn [truthy_opt]; rewrite Hs, Eg; cbn [negb andb].
  unfold verifyWebhookSignature; cbn [truthy_opt]; rewrite Hs, Eg; cbn [negb orb].
  reflexivity.
Qed.

Lemma signed_root_rejected_witness :
  handle signed_config offline_upstream (signed_request PathRoot started_body)
  = ([WriteLog (LogWebhookError TypeError)], Ok resp500).
Proof.
  apply (signed_root_rejected signed_config offline_upstream
           (signed_request PathRoot started_body) sample_secret
           (BodyParsed
              (JObj [("type", JStr "recording.started");
                     ("payload", JObj [("room_name", JStr "demo"); ("recording_id", JStr "r1");
                                       ("started_by", JStr "alice");
                                       ("start_ts", JNum "1700000000")])])));
    vm_compute; reflexivity.
Defined.

(** ** Bodies that are not objects *)



(** ** The handlers' log lines *)

Lemma prim_ok_js_or : forall a b, prim_ok a = true -> prim_ok b = true -> prim_ok (js_or a b) = true.
Proof. intros a b Ha Hb; unfold js_or; destruct (truthy a); assumption. Qed.

Lemma not_available_or_null : forall v, not_available (js_or v JNull) = not_available v.
Proof.
  intro v; unfold not_available, js_or.
  destruct (truthy v) eqn:E; [rewrite E | ]; reflexivity.
Qed.

Lemma download_url_found : forall up id d,
  prim_ok id = true -> get_recording up id = FetchOk (JObj d) ->
  getRecordingDownloadUrl up id = ret (js_or (field d "download_link") JNull).
Proof.
  intros up id d Hi H; unfold getRecordingDownloadUrl.
  rewrite to_primitive_ok by exact Hi; msimp; rewrite H; cbn [axios_get].
  msimp; rewrite get_prop_obj; msimp; reflexivity.
Qed.

Lemma access_link_found : forall up id secs d,
  prim_ok id = true -> get_access_link up id secs = FetchOk (JObj d) ->
  getRecordingAccessLink up id secs = ret (js_or (field d "download_link") JNull).
Proof.
  intros up id secs d Hi H; unfold getRecordingAccessLink.
  rewrite to_primitive_ok by exact Hi; msimp; rewrite H; cbn [axios_get].
  msimp; rewrite get_prop_obj; msimp; reflexivity.
Qed.

Lemma dispatch_ready_lookup : forall up fs pfs dl al,
  field fs "type" = JStr "recording.ready-to-download" ->
  field fs "payload" = JObj pfs ->
  ready_payload_ok pfs = true ->
  getRecordingDownloadUrl up (field pfs "recording_id") = ret dl ->
  getRecordingAccessLink up (field pfs "recording_id") 3600 = ret al ->
  dispatch up (JObj fs)
  = prepend (RunHandler KReady)
      (if prim_ok (not_available dl) && prim_ok (not_available al)
       then tell (WriteLog (LogReady (field pfs "room_name") (field pfs "recording_id")
                              (field pfs "duration") (field pfs "start_ts")
                              (not_available (field pfs "s3_key"))
                              (not_available dl) (not_available al)))
       else throw TypeError).
Proof.
  intros up fs pfs dl al Ht Hp Hok Hd Ha.
  unfold ready_payload_ok in Hok; cbn [forallb] in Hok.
  repeat match type of Hok with
         | _ && _ = true => apply andb_prop in Hok as [?Hf Hok]
         end.
  unfold dispatch; rewrite get_prop_obj, Ht; msimp; lit_eqb.
  unfold handleRecordingReady; msimp.
  rewrite get_prop_obj, Hp; msimp.
  rewrite !get_prop_obj; msimp.
  rewrite (to_primitive_ok (field pfs "start_ts")) by assumption; msimp.
  rewrite (to_primitive_ok (field pfs "duration")) by assumption; msimp.
  rewrite Hd, Ha; msimp.
  rewrite (to_primitive_ok (field pfs "room_name")) by assumption; msimp.
  rewrite (to_primitive_ok (field pfs "recording_id")) by assumption; msimp.
  rewrite (to_primitive_ok (not_available (field pfs "s3_key")))
    by (apply prim_ok_not_available; assumption); msimp.
  unfold to_primitive at 1 2.
  destruct (prim_ok (not_available dl)), (prim_ok (not_available al)); cbn [andb]; msimp;
    unfold writeLog; reflexivity.
Qed.

(** A [recording.ready-to-download] event with a well-formed payload, when
    both provider lookups answer with an object, is logged with the
    [download_link] of [GET /recordings/{id}] as download URL and the
    [download_link] (not a [link] field) of the access-link response as
    streaming URL, each replaced by ["Not available"] when falsy, and the
    request is acknowledged with 200, provided both values convert to
    strings in the log line's template literal; otherwise (an object such
    as [{"toString":1}]) the handler throws and the request is answered
    500 after the error line. *)
Theorem ready_enrichment_logged : forall cfg up req payload fs pfs d1 d2,
  route_payload cfg req = inl payload ->
  signature_gate cfg (signature_of req) payload = ret true ->
  parse_event payload = ret (JObj fs) ->
  field fs "type" = JStr "recording.ready-to-download" ->
  field fs "payload" = JObj pfs ->
  ready_payload_ok pfs = true ->
  get_recording up (field pfs "recording_id") = FetchOk (JObj d1) ->
  get_access_link up (field pfs "recording_id") 3600 = FetchOk (JObj d2) ->
  handle cfg up req
  = if prim_ok (not_available (field d1 "download_link"))
       && prim_ok (not_available (field d2 "download_link"))
    then (received_line (path req) (JStr "recording.ready-to-download")
            ++ [RunHandler KReady;
                WriteLog (LogReady (field pfs "room_name") (field pfs "recording_id")
                           (field pfs "duration") (field pfs "start_ts")
                           (not_available (field pfs "s3_key"))
                           (not_available (field d1 "download_link"))
                           (not_available (field d2 "download_link")))],
          Ok resp200)
    else (received_line (path req) (JStr "recording.ready-to-download")
            ++ [RunHandler KReady; WriteLog (LogWebhookError TypeError)],
          Ok resp500).
Proof.
  intros cfg up req payload fs pfs d1 d2 Hr Hg Hp Ht Hpl Hok Hrec Hacc.
  assert (Hid : prim_ok (field pfs "recording_id") = true).
  { unfold ready_payload_ok in Hok; cbn [forallb] in Hok.
    destruct (prim_ok (field pfs "room_name")), (prim_ok (field pfs "recording_id"));
      cbn [andb] in Hok; congruence. }
  rewrite (handle_passes cfg up req payload (JObj fs)) by assumption.
  rewrite (after_parse_paths _ _ _ (JStr "recording.ready-to-download"))
    by first [assumption | reflexivity].
  unfold after_parse.
  rewrite (dispatch_ready_lookup up fs pfs (js_or (field d1 "download_link") JNull)
             (js_or (field d2 "download_link") JNull));
    first [ assumption
          | apply download_url_found; assumption
          | apply access_link_found; assumption
          | idtac ].
  rewrite !not_available_or_null.
  destruct (prim_ok (not_available (field d1 "download_link"))
            && prim_ok (not_available (field d2 "download_link")));
    unfold tell, prepend, throw; reflexivity.
Qed.

(** A provider that knows recording [r1]. *)
Definition demo_upstream : upstream := {|
  get_recording := fun _ => FetchOk (JObj [("download_link", JStr "https://dl/r1.mp4")]);
  get_access_link := fun _ _ => FetchOk (JObj [("download_link", JStr "https://stream/r1")])
|}.

Lemma ready_enrichment_logged_witness :
  handle signed_config demo_upstream (signed_request PathWebhook ready_body)
  = ([RunHandler KReady;
      WriteLog (LogReady (JStr "demo") (JStr "r1") (JNum "95") (JNum "1700000000")
                 (JStr "Not available") (JStr "https://dl/r1.mp4") (JStr "https://stream/r1"))],
     Ok resp200).
Proof.
  etransitivity; [apply (ready_enrichment_logged signed_config demo_upstream
           (signed_request PathWebhook ready_body) (BodyBuffer ready_body)
           [("type", JStr "recording.ready-to-download");
            ("payload", JObj [("room_name", JStr "demo"); ("recording_id", JStr "r1");
                              ("duration", JNum "95"); ("start_ts", JNum "1700000000")])]
           [("room_name", JStr "demo"); ("recording_id", JStr "r1");
            ("duration", JNum "95"); ("start_ts", JNum "1700000000")]
           [("download_link", JStr "https://dl/r1.mp4")]
           [("download_link", JStr "https://stream/r1")]);
    vm_compute; reflexivity | vm_compute; reflexivity].
Defined.

(** A [recording.started] event whose payload fields convert to strings
    is logged with its room, recording id and start time, the starter
    replaced by ["Unknown"] when falsy, and acknowledged with 200. *)
Theorem started_event_logged : forall cfg up req payload fs pfs,
  route_payload cfg req = inl payload ->
  signature_gate cfg (signature_of req) payload = ret true ->
  parse_event payload = ret (JObj fs) ->
  field fs "type" = JStr "recording.started" ->
  field fs "payload" = JObj pfs ->
  forallb prim_ok [field pfs "room_name"; field pfs "recording_id";
                   field pfs "started_by"; field pfs "start_ts"] = true ->
  handle cfg up req
  = (received_line (path req) (JStr "recording.started")
       ++ [RunHandler KStarted;
           WriteLog (LogStarted (field pfs "room_name") (field pfs "recording_id")
                      (js_or (field pfs "started_by") (JStr "Unknown"))
                      (field pfs "start_ts"))],
     Ok resp200).
Proof.
  intros cfg up req payload fs pfs Hr Hg Hp Ht Hpl Hok.
  cbn [forallb] in Hok.
  repeat match type of Hok with
         | _ && _ = true => apply andb_prop in Hok as [?Hf Hok]
         end.
  rewrite (handle_passes cfg up req payload (JObj fs)) by assumption.
  rewrite (after_parse_paths _ _ _ (JStr "recording.started")) by first [assumption | reflexivity].
  unfold after_parse, dispatch; rewrite get_prop_obj, Ht; msimp; lit_eqb.
  unfold handleRecordingStarted; msimp.
  rewrite get_prop_obj, Hpl; msimp.
  rewrite !get_prop_obj; msimp.
  rewrite (to_primitive_ok (field pfs "start_ts")) by assumption; msimp.
  rewrite (to_primitive_ok (field pfs "room_name")) by assumption; msimp.
  rewrite (to_primitive_ok (field pfs "recording_id")) by assumption; msimp.
  rewrite (to_primitive_ok (js_or (field pfs "started_by") (JStr "Unknown")))
    by (apply prim_ok_js_or; [assumption | reflexivity]); msimp.
  unfold writeLog; msimp; reflexivity.
Qed.

Lemma started_event_logged_witness :
  handle open_config offline_upstream
    (unsigned_request PathWebhook
       (json_text "{'type':'recording.started','payload':{'room_name':'demo','recording_id':'r1','started_by':'','start_ts':5}}"))
  = ([RunHandler KStarted;
      WriteLog (LogStarted (JStr "demo") (JStr "r1") (JStr "Unknown") (JNum "5"))], Ok resp200).
Proof.
  etransitivity; [apply (started_event_logged open_config offline_upstream _
           (BodyBuffer (json_text "{'type':'recording.started','payload':{'room_name':'demo','recording_id':'r1','started_by':'','start_ts':5}}"))
           [("type", JStr "recording.started");
            ("payload", JObj [("room_name", JStr "demo"); ("recording_id", JStr "r1");
                              ("started_by", JStr ""); ("start_ts", JNum "5")])]
           [("room_name", JStr "demo"); ("recording_id", JStr "r1");
            ("started_by", JStr ""); ("start_ts", JNum "5")]);
    vm_compute; reflexivity | vm_compute; reflexivity].
Defined.

(** A [recording.error] event whose payload fields convert to strings is
    logged with its room, recording id and error message, the message
    replaced by ["Unknown error"] when falsy, and acknowledged with 200. *)
Theorem error_event_logged : forall cfg up req payload fs pfs,
  route_payload cfg req = inl payload ->
  signature_gate cfg (signature_of req) payload = ret true ->
  parse_event payload = ret (JObj fs) ->
  field fs "type" = JStr "recording.error" ->
  field fs "payload" = JObj pfs ->
  forallb prim_ok [field pfs "room_name"; field pfs "recording_id"; field pfs "error_msg"] = true ->
  handle cfg up req
  = (received_line (path req) (JStr "recording.error")
       ++ [RunHandler KError;
           WriteLog (LogRecordingError (field pfs "room_name") (field pfs "recording_id")
                      (js_or (field pfs "error_msg") (JStr "Unknown error")))],
     Ok resp200).
Proof.
  intros cfg up req payload fs pfs Hr Hg Hp Ht Hpl Hok.
  cbn [forallb] in Hok.
  repeat match type of Hok with
         | _ && _ = true => apply andb_prop in Hok as [?Hf Hok]
         end.
  rewrite (handle_passes cfg up req payload (JObj fs)) by assumption.
  rewrite (after_parse_paths _ _ _ (JStr "recording.error")) by first [assumption | reflexivity].
  unfold after_parse, dispatch; rewrite get_prop_obj, Ht; msimp; lit_eqb.
  unfold handleRecordingError; msimp.
  rewrite get_prop_obj, Hpl; msimp.
  rewrite !get_prop_obj; msimp.
  rewrite (to_primitive_ok (field pfs "room_name")) by assumption; msimp.
  rewrite (to_primitive_ok (field pfs "recording_id")) by assumption; msimp.
  rewrite (to_primitive_ok (js_or (field pfs "error_msg") (JStr "Unknown error")))
    by (apply prim_ok_js_or; [assumption | reflexivity]); msimp.
  unfold writeLog; msimp; reflexivity.
Qed.

Lemma error_event_logged_witness :
  handle open_config offline_upstream
    (unsigned_request PathRoot
       (json_text "{'type':'recording.error','payload':{'room_name':'demo','recording_id':'r1'}}"))
  = ([WriteLog (LogEventReceived (JStr "recording.error")); RunHandler KError;
      WriteLog (LogRecordingError (JStr "demo") (JStr "r1") (JStr "Unknown error"))], Ok resp200).
Proof.
  etransitivity; [apply (error_event_logged open_config offline_upstream _
           (BodyParsed (JObj [("type", JStr "recording.error");
                              ("payload", JObj [("room_name", JStr "demo");
                                                ("recording_id", JStr "r1")])]))
           [("type", JStr "recording.error");
            ("payload", JObj [("room_name", JStr "demo"); ("recording_id", JStr "r1")])]
           [("room_name", JStr "demo"); ("recording_id", JStr "r1")]);
    vm_compute; reflexivity | vm_compute; reflexivity].
Defined.

(** ** The recording share URL *)

Lemma replace_first_absent : forall pat rep s,
  occurs pat s = false -> replace_first pat rep s = s.
Proof.
  intros pat rep s; induction s as [| c r IH]; intro H; simpl in H |- *;
    apply orb_false_iff in H as [Hp Hr]; rewrite Hp; [reflexivity |].
  rewrite IH by exact Hr; reflexivity.
Qed.

Lemma prefix_app_long : forall pat s t,
  (String.length pat <= String.length s)%nat ->
  String.prefix pat (s ++ t) = String.prefix pat s.
Proof.
  intros pat s; revert pat; induction s as [| b s IH]; intros pat t H;
    destruct pat as [| a p].
  - destruct t; reflexivity.
  - simpl in H; lia.
  - reflexivity.
  - cbn [String.prefix append]; destruct (ascii_dec a b); [| reflexivity].
    apply IH; simpl in H; lia.
Qed.

(** [.daily.co] has no proper border: it cannot start inside a non-empty
    [s] and end inside a following copy of itself. *)
Lemma prefix_daily_app : forall s,
  s <> EmptyString -> String.prefix ".daily.co" (s ++ ".daily.co") = String.prefix ".daily.co" s.
Proof.
  intros s Hs.
  destruct (Nat.le_gt_cases 9 (String.length s)) as [Hl | Hl];
    [apply prefix_app_long; exact Hl |].
  destruct s as [| c1 s]; [congruence | clear Hs].
  do 8 (destruct s as [| ? s]; [
    cbn [String.prefix append];
    repeat (match goal with |- context [ascii_dec ?a ?b] =>
              is_var b; destruct (ascii_dec a b) as [<- | ?]; [| reflexivity] end);
    vm_compute; reflexivity |]).
  simpl in Hl; lia.
Qed.

Lemma replace_first_daily_suffix : forall d,
  occurs ".daily.co" d = false -> replace_first ".daily.co" "" (d ++ ".daily.co") = d.
Proof.
  induction d as [| c r IH]; intro H; [reflexivity |].
  cbn [occurs] in H; apply orb_false_iff in H as [Hp Hr].
  cbn [append]; unfold replace_first; fold replace_first.
  change (String c (r ++ ".daily.co")) with ((String c r) ++ ".daily.co")%string.
  rewrite prefix_daily_app, Hp by discriminate.
  cbn [append]; rewrite IH by exact Hr; reflexivity.
Qed.

(** A non-empty [DAILY_DOMAIN] given as the bare subdomain [d] or as
    [d.daily.co] yields the same share URL [https://d.daily.co/rec/<token>],
    as long as [d] does not itself contain [.daily.co]. *)
Theorem share_url_domain_forms : forall d tok,
  d <> EmptyString -> occurs ".daily.co" d = false ->
  getRecordingShareUrl (Some (d ++ ".daily.co")%string) tok = getRecordingShareUrl (Some d) tok
  /\ getRecordingShareUrl (Some d) tok = ("https://" ++ d ++ ".daily.co/rec/" ++ tok)%string.
Proof.
  intros d tok Hd Ho; unfold getRecordingShareUrl.
  assert (E1 : String.eqb d "" = false) by (apply String.eqb_neq; exact Hd).
  assert (E2 : String.eqb (d ++ ".daily.co")%string "" = false)
    by (apply String.eqb_neq; destruct d; [congruence | discriminate]).
  rewrite E1, E2, replace_first_daily_suffix, replace_first_absent by exact Ho.
  split; reflexivity.
Qed.

Lemma share_url_domain_forms_witness :
  getRecordingShareUrl (Some "acme.daily.co") "tok1" = getRecordingShareUrl (Some "acme") "tok1"
  /\ getRecordingShareUrl (Some "acme") "tok1" = "https://acme.daily.co/rec/tok1".
Proof.
  apply (share_url_domain_forms "acme" "tok1"); [discriminate | vm_compute; reflexivity].
Defined.

(** ** The enrichment lookups *)

Lemma lookup_value : forall id f,
  catch (to_primitive id ;;
         data <- axios_get f ;;
         link <- get_prop data "download_link" ;;
         ret (js_or link JNull))
        (fun _ => ret JNull)
  = ret (if prim_ok id
         then match f with FetchOk (JObj fs) => js_or (field fs "download_link") JNull | _ => JNull end
         else JNull).
Proof.
  intros id f; unfold to_primitive.
  destruct (prim_ok id); [| reflexivity].
  destruct f as [[] |]; reflexivity.
Qed.

(** [getRecordingDownloadUrl] and [getRecordingAccessLink] never throw and
    write no log line: when the recording id converts to a string and the
    provider answers with an object, each yields that response's
    [download_link] when truthy and [null] otherwise; in every other case
    (a failed request, a response that is not an object, an id that
    cannot be converted to a string) each yields [null]. *)
Theorem recording_lookups_never_throw : forall up id secs,
  getRecordingDownloadUrl up id
  = ret (if prim_ok id
         then match get_recording up id with
              | FetchOk (JObj fs) => js_or (field fs "download_link") JNull
              | _ => JNull
              end
         else JNull)
  /\ getRecordingAccessLink up id secs
     = ret (if prim_ok id
            then match get_access_link up id secs with
                 | FetchOk (JObj fs) => js_or (field fs "download_link") JNull
                 | _ => JNull
                 end
            else JNull).
Proof.
  intros up id secs; split; apply lookup_value.
Qed.
